(** * braidlab: the entropy helper ([entropy_helper.cpp])

    A shallow embedding of [+braidlab/@braid/private/entropy_helper.cpp]:
    the length dispatcher [looplength] and the growth-rate iteration of
    [mexFunction].

    - A C++ [double] is an IEEE 754 binary64 number: Rocq's primitive
      [float], with its correctly rounded [-], [/], [sqrt], [abs] and its
      IEEE comparison [<?] (false as soon as one side is NaN).
    - [int] values ([maxit], [nconvreq], [it], [nconv], [n]) are integers
      of [Z]; the only narrowing conversion of the file, [(int)(N/2 + 2)],
      is written out with [to_int].  [++it] and [++nconv] are plain
      successors: they stay below [2^31] whenever [maxit < INT_MAX].
    - [mwSize] and [mwIndex] values are natural numbers.
    - The 1-indexed arrays [a] and [b] ([a_storage.data() - 1]) are lists,
      read at index [k] by [idx1] (cell [k - 1] of the storage).
    - [mexErrMsgIdAndTxt] never returns to its caller: a computation that
      may reach it lives in the error monad [mex].
    - [std::log] and the functions of [update_rules.hpp] and
      [loop_helper.hpp] are not part of this file: the development is
      parameterised by them.
    - The [printf] diagnostics (guarded by [BRAIDLAB_debuglvl]) change
      neither the state nor the control flow and are left out. *)

From Stdlib Require Import ZArith List Bool Lia Floats.
Import ListNotations.

Local Open Scope Z_scope.

Module entropy_helper.

(** ** Errors of the host environment *)

(** The three message identifiers the file passes to [mexErrMsgIdAndTxt]:
    [BRAIDLAB:braid:entropy_helper:badarg], [...:badlengthflag] and
    [...:badlength]. *)
Inductive mexError : Type :=
| badarg
| badlengthflag
| badlength.

Definition mex (A : Type) : Type := (mexError + A)%type.

Definition ret {A : Type} (x : A) : mex A := inr x.

Definition mexErrMsgIdAndTxt {A : Type} (e : mexError) : mex A := inl e.

Definition bind {A B : Type} (c : mex A) (k : A -> mex B) : mex B :=
  match c with
  | inl e => inl e
  | inr x => k x
  end.

Notation "x <- c ;; k" := (bind c (fun x => k))
  (at level 61, c at next level, right associativity).

(** ** Numbers *)

Definition double : Type := float.

Definition INT_MAX : Z := 2 ^ 31 - 1.

(** Conversion of an integer to [int] (two's complement, 32 bits). *)
Definition to_int (z : Z) : Z := (z + 2 ^ 31) mod 2 ^ 32 - 2 ^ 31.

(** Conversion of an [int] to [double]; exact on the whole [int] range. *)
Definition double_of_int (z : Z) : double :=
  if z <? 0 then PrimFloat.opp (PrimFloat.of_uint63 (Uint63.of_Z (- z)))
  else PrimFloat.of_uint63 (Uint63.of_Z z).

(** [p[k]] for a pointer [p = storage.data() - 1]. *)
Definition idx1 (p : list double) (k : nat) : double :=
  nth (k - 1) p 0%float.

(** ** Arguments and results of the MEX entry point *)

(** [prhs[0..6]] once read by lines 73-87.  [P_BRAID_M], [P_BRAID_N] and
    [P_LOOP_IN_M] are the [mxGetM]/[mxGetN] dimensions; the loop array has
    [length P_LOOP_IN] columns.  The scalars are the values after the
    conversions of lines 76-83. *)
Record Args : Type := {
  P_BRAID_M : nat;
  P_BRAID_N : nat;
  P_BRAID : list Z;
  P_LOOP_IN_M : nat;
  P_LOOP_IN : list double;
  P_MAXIT : Z;
  P_NCONV : Z;
  P_TOL : double;
  P_LENGTHTYPE : Z;
  P_ISFUNDAMENTAL : bool
}.

(** [plhs[0..2]].  [P_ENTROPY] is [None] when [entr] is returned without
    ever having been assigned (the loop body never ran). *)
Record Out : Type := {
  P_ENTROPY : option double;
  P_ITERATES : Z;
  P_LOOP_OUT : list double
}.

(** The local variables of [mexFunction] that live across iterations. *)
Record LoopState : Type := {
  it : Z;
  a : list double;
  b : list double;
  discount : double;
  currentLength : double;
  entr : option double;
  entr0 : double;
  nconv : Z
}.

(** How control leaves an iteration (or the whole loop): [Next] through
    the end of the body (resp. the failed guard [it <= maxit]), [Break]
    through [break]. *)
Inductive Flow : Type :=
| Next
| Break.

(** ** Test doubles for the collaborators

    Executable stand-ins for the functions this file only declares or
    includes, used to run the helper on concrete arguments. *)
Module TestDoubles.

(** The first-order expansion of the logarithm at 1; it agrees with
    [std::log] at 1 ([log 1 = 0]). *)
Definition log (x : double) : double := (x - 1)%float.

(** The action of the empty braid word: [a] and [b] are left as they
    are. *)
Definition update_rules (Ngen : nat) (n : Z) (braidword : list Z)
  (a b : list double) : list double * list double := (a, b).

(** The squared Euclidean norm of the coordinates [a[1..N/2]],
    [b[1..N/2]]. *)
Definition l2norm2 (N : nat) (a b : list double) : double :=
  fold_left
    (fun acc k => (acc + (idx1 a k * idx1 a k + idx1 b k * idx1 b k))%float)
    (seq 1 (N / 2)) 0%float.

(** A length that is a sum of absolute values, standing in for
    [intaxis] and [minlength]: never negative, zero on the zero
    vector. *)
Definition abslength (N : nat) (a b : list double) : double :=
  fold_left
    (fun acc k => (acc + (PrimFloat.abs (idx1 a k)
                          + PrimFloat.abs (idx1 b k)))%float)
    (seq 1 (N / 2)) 0%float.

(** A defective length function: it answers [-1] whatever the loop. *)
Definition neglength (N : nat) (a b : list double) : double :=
  (-1)%float.

(** The double nearest to [1e-9]. *)
Definition tol_1em9 : double := 0x1.12e0be826d695p-30%float.

(** Arguments with the empty braid word and a one-row loop array. *)
Definition call (u : list double) (maxit nconvreq : Z) (tol : double)
  (lengthFlag : Z) (isFundamental : bool) : Args :=
  {| P_BRAID_M := 0;
     P_BRAID_N := 0;
     P_BRAID := [];
     P_LOOP_IN_M := 1;
     P_LOOP_IN := u;
     P_MAXIT := maxit;
     P_NCONV := nconvreq;
     P_TOL := tol;
     P_LENGTHTYPE := lengthFlag;
     P_ISFUNDAMENTAL := isFundamental |}.

(** The arguments of the identity scenario: the empty braid word on
    the loop [(1, 0)], Euclidean length (flag 2), at most [maxit]
    passes, one stable pass required, tolerance [tol]. *)
Definition identity_call (maxit : Z) (tol : double) : Args :=
  call [1%float; 0%float] maxit 1 tol 2 false.

(** The state of the identity scenario at the head of the loop. *)
Definition identity_state (it : Z) (entr : option double)
  (entr0 : double) (nconv : Z) : LoopState :=
  {| it := it; a := [1%float]; b := [0%float]; discount := 0%float;
     currentLength := 1%float; entr := entr; entr0 := entr0;
     nconv := nconv |}.

End TestDoubles.

(** Number of [true] at the end of a list of test outcomes (oldest
    first): the length of the current run of consecutive stable
    iterations. *)
Fixpoint leading (l : list bool) : nat :=
  match l with
  | true :: l' => S (leading l')
  | _ => O
  end.

Definition streak (fl : list bool) : nat := leading (rev fl).

(** ** [eqfuzzy] ([eqfuzzy.hpp], lines 38-41)

    [std::abs] on a [double] is the binary64 absolute value. *)
Definition eqfuzzy (a b AbsTol : double) : bool :=
  (PrimFloat.abs (a - b) <? AbsTol)%float.

(** The finite numbers in the specification of binary64: the zeros and
    the numbers with a mantissa. *)
Definition sf_finite (x : spec_float) : bool :=
  match x with
  | S754_zero _ | S754_finite _ _ _ => true
  | S754_infinity _ | S754_nan => false
  end.

Section EntropyHelper.

(** [std::log]. *)
Variable log : double -> double.

(** [update_rules(Ngen, n, braidword, a, b)] of [update_rules.hpp]: it
    overwrites [a] and [b]; the new contents are returned. *)
Variable update_rules :
  nat -> Z -> list Z -> list double -> list double ->
  list double * list double.

(** The length functions of [loop_helper.hpp]. *)
Variable intaxis : nat -> list double -> list double -> double.
Variable minlength : nat -> list double -> list double -> double.
Variable l2norm2 : nat -> list double -> list double -> double.

(** *** [looplength] (lines 189-219) *)

Definition looplength (N : nat) (a b : list double) (lengthFlag : Z)
  : mex double :=
  retval <- match lengthFlag with
            | 0 => ret (intaxis N a b)
            | 1 => ret (minlength N a b)
            | 2 => ret (PrimFloat.sqrt (l2norm2 N a b))
            | _ => mexErrMsgIdAndTxt badlengthflag
            end ;;
  if (retval <? 0)%float then mexErrMsgIdAndTxt badlength
  else ret retval.

(** *** [mexFunction] (lines 65-187) *)

Section Call.

Variable args : Args.

Definition braidword : list Z := P_BRAID args.
Definition u : list double := P_LOOP_IN args.
Definition maxit : Z := P_MAXIT args.
Definition nconvreq : Z := P_NCONV args.
Definition tol : double := P_TOL args.
Definition lengthFlag : Z := P_LENGTHTYPE args.
Definition isFundamental : bool := P_ISFUNDAMENTAL args.

(** Line 85. *)
Definition Ngen : nat := Nat.max (P_BRAID_M args) (P_BRAID_N args).

(** Line 87. *)
Definition N : nat := length u.

(** Line 100: number of loop punctures (including boundary point). *)
Definition n : Z := to_int (Z.of_nat (N / 2 + 2)).

(** Lines 109-113. *)
Definition a_in : list double :=
  map (fun k => nth (k - 1) u 0%float) (seq 1 (N / 2)).
Definition b_in : list double :=
  map (fun k => nth (k - 1 + N / 2) u 0%float) (seq 1 (N / 2)).

(** Lines 121-131. *)
Definition initial_discount : double :=
  match lengthFlag with
  | 0 => (double_of_int n - (if isFundamental then 1 else 0) - 1)%float
  | _ => 0%float
  end.

(** Lines 87-133: validation of the loop argument, the 1-indexed
    copies, the initial values of the locals and the first length. *)
Definition setup : mex LoopState :=
  _ <- (if negb (P_LOOP_IN_M args =? 1)%nat
        then mexErrMsgIdAndTxt badarg else ret tt) ;;
  _ <- (if negb (N mod 2 =? 0)%nat
        then mexErrMsgIdAndTxt badarg else ret tt) ;;
  len <- looplength N a_in b_in lengthFlag ;;
  ret {| it := 1;
         a := a_in;
         b := b_in;
         discount := initial_discount;
         currentLength := (len - initial_discount)%float;
         entr := None;
         entr0 := (-1)%float;
         nconv := 0 |}.

(** Lines 138-143: the coordinates and the discount after the division
    by [currentLength]. *)
Definition rescale (st : LoopState)
  : list double * list double * double :=
  (map (fun k => (idx1 (a st) k / currentLength st)%float)
       (seq 1 (N / 2)),
   map (fun k => (idx1 (b st) k / currentLength st)%float)
       (seq 1 (N / 2)),
   (discount st / currentLength st)%float).

(** Lines 138-150: rescale, act with the braid, measure, take the
    logarithm.  [entr0] and [nconv] are not touched here. *)
Definition measure (st : LoopState) : mex LoopState :=
  let '(a1, b1, d1) := rescale st in
  let '(a2, b2) := update_rules Ngen n braidword a1 b1 in
  len <- looplength N a2 b2 lengthFlag ;;
  let cl := (len - d1)%float in
  ret {| it := it st;
         a := a2;
         b := b2;
         discount := d1;
         currentLength := cl;
         entr := Some (log cl);
         entr0 := entr0 st;
         nconv := nconv st |}.

(** The test of line 156 on the value [e] of [entr]. *)
Definition stable (e : double) (st : LoopState) : bool :=
  (PrimFloat.abs (e - entr0 st) <? tol)%float.

(** Lines 156-174, for the value [e] of [entr]: the new [nconv], the
    new [entr0], and whether [break] was taken (line 174 is skipped
    by [break]). *)
Definition convergence_test (e : double) (st : LoopState)
  : Flow * LoopState :=
  if stable e st then
    let nc := nconv st + 1 in
    if nc >=? nconvreq then
      (Break,
       {| it := it st; a := a st; b := b st; discount := discount st;
          currentLength := currentLength st; entr := entr st;
          entr0 := entr0 st; nconv := nc |})
    else
      (Next,
       {| it := it st; a := a st; b := b st; discount := discount st;
          currentLength := currentLength st; entr := entr st;
          entr0 := e; nconv := nc |})
  else if nconv st >? 0 then
    (Next,
     {| it := it st; a := a st; b := b st; discount := discount st;
        currentLength := currentLength st; entr := entr st;
        entr0 := e; nconv := 0 |})
  else
    (Next,
     {| it := it st; a := a st; b := b st; discount := discount st;
        currentLength := currentLength st; entr := entr st;
        entr0 := e; nconv := nconv st |}).

(** One pass through the body of the [for] loop (lines 137-174). *)
Definition loop_body (st : LoopState) : mex (Flow * LoopState) :=
  st1 <- measure st ;;
  ret (convergence_test (log (currentLength st1)) st1).

(** [++it]. *)
Definition incr_it (st : LoopState) : LoopState :=
  {| it := it st + 1; a := a st; b := b st; discount := discount st;
     currentLength := currentLength st; entr := entr st;
     entr0 := entr0 st; nconv := nconv st |}.

(** The [for] loop of line 135, entered at its guard in state [st].
    [fuel] bounds the number of passes; [maxit + 1 - it st] passes
    are always enough (lemma [for_loop_fuel]). *)
Fixpoint for_loop (fuel : nat) (st : LoopState)
  : mex (Flow * LoopState) :=
  match fuel with
  | O => ret (Next, st)
  | S fuel' =>
      if it st <=? maxit then
        r <- loop_body st ;;
        match r with
        | (Break, st') => ret (Break, st')
        | (Next, st') => for_loop fuel' (incr_it st')
        end
      else ret (Next, st)
  end.

(** Lines 177-184. *)
Definition finish (st : LoopState) : Out :=
  {| P_ENTROPY := entr st;
     P_ITERATES := it st;
     P_LOOP_OUT :=
       map (fun k => idx1 (a st) k) (seq 1 (N / 2)) ++
       map (fun k => idx1 (b st) k) (seq 1 (N / 2)) |}.

(** Lines 87-175: the state in which the loop is left, and how. *)
Definition run : mex (Flow * LoopState) :=
  st0 <- setup ;;
  for_loop (Z.to_nat maxit) st0.

Definition mexFunction : mex Out :=
  r <- run ;;
  ret (finish (snd r)).

(** Executions of the loop.  [exec st0 fl st]: started at its guard
    in state [st0], the loop comes back to its guard in state [st]
    after [length fl] passes through its body, none of which failed
    or took [break]; [fl] lists, oldest first, the outcome of the
    test of line 156 in each of these passes. *)
Inductive exec (st0 : LoopState) : list bool -> LoopState -> Prop :=
| exec_start : exec st0 [] st0
| exec_pass : forall fl st st1 st2,
    exec st0 fl st ->
    it st <= maxit ->
    measure st = inr st1 ->
    convergence_test (log (currentLength st1)) st1 = (Next, st2) ->
    exec st0 (fl ++ [stable (log (currentLength st1)) st1])
         (incr_it st2).

(** ** Facts on binary64 arithmetic *)

Lemma sub_zero_r (x : double) : (x - 0)%float = x.
Proof.
  apply Prim2SF_inj. rewrite sub_spec.
  change (Prim2SF 0) with (S754_zero false).
  destruct (Prim2SF x) as [[|]|[|]| |s m e]; reflexivity.
Qed.

Lemma zero_div_pos (x : double) :
  (0 <? x)%float = true -> (0 / x)%float = 0%float.
Proof.
  intros H. apply Prim2SF_inj. rewrite div_spec.
  rewrite ltb_spec in H. revert H.
  change (Prim2SF 0) with (S754_zero false).
  destruct (Prim2SF x) as [[|]|[|]| |[|] m e];
    simpl; intros H; try discriminate H; reflexivity.
Qed.

(** ** The error monad *)

Lemma bind_inr {A B : Type} (c : mex A) (k : A -> mex B) (y : B) :
  bind c k = inr y -> exists x, c = inr x /\ k x = inr y.
Proof.
  destruct c as [e|x]; simpl; intros H; [discriminate H|].
  exists x. split; [reflexivity|exact H].
Qed.

(** ** [looplength] *)

(** The value assigned to [retval] by the [switch] of line 193, when
    the flag is one of the three supported ones. *)
Lemma looplength_inr (N0 : nat) (a0 b0 : list double) (f : Z)
  (len : double) :
  looplength N0 a0 b0 f = inr len ->
  (len <? 0)%float = false /\
  ((f = 0 /\ len = intaxis N0 a0 b0) \/
   (f = 1 /\ len = minlength N0 a0 b0) \/
   (f = 2 /\ len = PrimFloat.sqrt (l2norm2 N0 a0 b0))).
Proof.
  unfold looplength. intros H.
  apply bind_inr in H. destruct H as [r [Hr H]].
  destruct (r <? 0)%float eqn:E; [discriminate H|].
  injection H as <-. split; [exact E|].
  destruct f as [|[p|p|]|p]; try discriminate Hr.
  - left. injection Hr as <-. auto.
  - destruct p as [p|p|]; try discriminate Hr.
    right. right. injection Hr as <-. auto.
  - right. left. injection Hr as <-. auto.
Qed.

Lemma looplength_badflag (N0 : nat) (a0 b0 : list double) (f : Z) :
  f <> 0 -> f <> 1 -> f <> 2 ->
  looplength N0 a0 b0 f = inl badlengthflag.
Proof.
  intros H0 H1 H2. unfold looplength.
  destruct f as [|[p|p|]|p]; try reflexivity; try contradiction.
  destruct p as [p|p|]; try reflexivity. contradiction.
Qed.

(** ** One pass through the loop body *)

Lemma measure_inr (st st1 : LoopState) :
  measure st = inr st1 ->
  exists len,
    looplength N (a st1) (b st1) lengthFlag = inr len /\
    (a st1, b st1) =
      update_rules Ngen n braidword (fst (fst (rescale st)))
                   (snd (fst (rescale st))) /\
    discount st1 = snd (rescale st) /\
    currentLength st1 = (len - discount st1)%float /\
    entr st1 = Some (log (currentLength st1)) /\
    it st1 = it st /\ entr0 st1 = entr0 st /\ nconv st1 = nconv st.
Proof.
  unfold measure.
  destruct (rescale st) as [[a1 b1] d1]. simpl fst. simpl snd.
  destruct (update_rules Ngen n braidword a1 b1) as [a2 b2].
  intros H. apply bind_inr in H. destruct H as [len [Hl H]].
  injection H as <-. simpl. exists len. repeat split. exact Hl.
Qed.

Lemma convergence_test_fields (e : double) (st : LoopState) :
  let st' := snd (convergence_test e st) in
  it st' = it st /\ a st' = a st /\ b st' = b st /\
  discount st' = discount st /\
  currentLength st' = currentLength st /\ entr st' = entr st.
Proof.
  unfold convergence_test.
  destruct (stable e st);
    [destruct (nconv st + 1 >=? nconvreq)|destruct (nconv st >? 0)];
    simpl; repeat split.
Qed.

Lemma convergence_test_Break (e : double) (st : LoopState) :
  fst (convergence_test e st) = Break <->
  stable e st = true /\ nconvreq <= nconv st + 1.
Proof.
  unfold convergence_test.
  destruct (stable e st).
  - destruct (nconv st + 1 >=? nconvreq) eqn:E; simpl.
    + split; [intros _; split; [reflexivity|lia]|reflexivity].
    + split; [discriminate|intros [_ H]; lia].
  - destruct (nconv st >? 0); simpl;
      (split; [discriminate|intros [H _]; discriminate H]).
Qed.

Lemma convergence_test_nconv (e : double) (st : LoopState) :
  0 <= nconv st ->
  nconv (snd (convergence_test e st)) =
    if stable e st then nconv st + 1 else 0.
Proof.
  intros Hn. unfold convergence_test.
  destruct (stable e st).
  - destruct (nconv st + 1 >=? nconvreq); reflexivity.
  - destruct (nconv st >? 0) eqn:E; simpl; [reflexivity|lia].
Qed.

Lemma loop_body_inr (st : LoopState) (f : Flow) (st2 : LoopState) :
  loop_body st = inr (f, st2) ->
  exists st1,
    measure st = inr st1 /\
    convergence_test (log (currentLength st1)) st1 = (f, st2).
Proof.
  unfold loop_body. intros H.
  apply bind_inr in H. destruct H as [st1 [Hm H]].
  exists st1. split; [exact Hm|]. injection H as H. exact H.
Qed.

Lemma loop_body_it (st : LoopState) (f : Flow) (st2 : LoopState) :
  loop_body st = inr (f, st2) -> it st2 = it st.
Proof.
  intros H. apply loop_body_inr in H. destruct H as [st1 [Hm Hc]].
  apply measure_inr in Hm.
  destruct Hm as [len [_ [_ [_ [_ [_ [Hit _]]]]]]].
  pose proof (convergence_test_fields (log (currentLength st1)) st1) as F.
  rewrite Hc in F. simpl in F. destruct F as [F _]. congruence.
Qed.

(** ** The [for] loop *)

Lemma for_loop_unfold (fuel : nat) (st : LoopState) :
  for_loop (S fuel) st =
    if it st <=? maxit then
      r <- loop_body st ;;
      match r with
      | (Break, st') => ret (Break, st')
      | (Next, st') => for_loop fuel (incr_it st')
      end
    else ret (Next, st).
Proof. reflexivity. Qed.

(** The loop is left through its guard with [it = maxit + 1] (or with
    the [it] it was entered with, when that is already larger). *)
Lemma for_loop_Next (fuel : nat) :
  forall st st',
    (Z.to_nat (maxit + 1 - it st) <= fuel)%nat ->
    for_loop fuel st = inr (Next, st') ->
    it st' = Z.max (it st) (maxit + 1).
Proof.
  induction fuel as [|fuel IH]; intros st st' Hf H.
  - simpl in H. injection H as <-. lia.
  - rewrite for_loop_unfold in H.
    destruct (it st <=? maxit) eqn:G.
    + apply Z.leb_le in G.
      apply bind_inr in H. destruct H as [[f st2] [Hb H]].
      pose proof (loop_body_it _ _ _ Hb) as Hit.
      destruct f; [|discriminate H].
      apply IH in H; [|simpl; lia].
      simpl in H. lia.
    + apply Z.leb_gt in G. injection H as <-. lia.
Qed.

(** [break] is only taken in a pass, that is with [it <= maxit]. *)
Lemma for_loop_Break (fuel : nat) :
  forall st st',
    for_loop fuel st = inr (Break, st') ->
    it st <= it st' <= maxit.
Proof.
  induction fuel as [|fuel IH]; intros st st' H.
  - discriminate H.
  - rewrite for_loop_unfold in H.
    destruct (it st <=? maxit) eqn:G; [|discriminate H].
    apply Z.leb_le in G.
    apply bind_inr in H. destruct H as [[f st2] [Hb H]].
    pose proof (loop_body_it _ _ _ Hb) as Hit.
    destruct f.
    + apply IH in H. simpl in H. lia.
    + injection H as <-. lia.
Qed.

(** Fuel beyond [maxit + 1 - it] is never used: the loop function is
    total and its result does not depend on the bound. *)
Lemma for_loop_fuel (fuel : nat) :
  forall st,
    (Z.to_nat (maxit + 1 - it st) <= fuel)%nat ->
    for_loop fuel st = for_loop (Z.to_nat (maxit + 1 - it st)) st.
Proof.
  induction fuel as [|fuel IH]; intros st Hf.
  - replace (Z.to_nat (maxit + 1 - it st)) with O by lia. reflexivity.
  - rewrite for_loop_unfold.
    destruct (it st <=? maxit) eqn:G.
    + apply Z.leb_le in G.
      replace (Z.to_nat (maxit + 1 - it st))
        with (S (Z.to_nat (maxit + 1 - (it st + 1)))) by lia.
      rewrite for_loop_unfold, (proj2 (Z.leb_le _ _) G).
      destruct (loop_body st) as [e|[f st2]] eqn:Hb; [reflexivity|].
      simpl. destruct f; [|reflexivity].
      pose proof (loop_body_it _ _ _ Hb) as Hit.
      rewrite IH by (simpl; lia).
      simpl. rewrite Hit. reflexivity.
    + apply Z.leb_gt in G.
      replace (Z.to_nat (maxit + 1 - it st)) with O by lia. reflexivity.
Qed.

(** ** Executions *)

Lemma exec_pass_body (st0 : LoopState) (fl : list bool)
  (st st2 : LoopState) :
  exec st0 fl st ->
  it st <= maxit ->
  loop_body st = inr (Next, st2) ->
  exists s, exec st0 (fl ++ [s]) (incr_it st2).
Proof.
  intros He Hg Hb. apply loop_body_inr in Hb.
  destruct Hb as [st1 [Hm Hc]].
  eexists. eapply exec_pass; eassumption.
Qed.

Lemma exec_it (st0 : LoopState) (fl : list bool) (st : LoopState) :
  exec st0 fl st -> it st = it st0 + Z.of_nat (length fl).
Proof.
  induction 1 as [|fl st st1 st2 He IH Hg Hm Hc].
  - simpl. lia.
  - assert (Hb : loop_body st = inr (Next, st2)).
    { unfold loop_body. rewrite Hm. simpl. rewrite Hc. reflexivity. }
    apply loop_body_it in Hb.
    rewrite length_app. simpl. lia.
Qed.

(** The loop function replays an execution pass by pass. *)
Lemma exec_for_loop (st0 : LoopState) (fl : list bool)
  (st : LoopState) :
  exec st0 fl st ->
  forall k, for_loop (length fl + k) st0 = for_loop k st.
Proof.
  induction 1 as [|fl st st1 st2 He IH Hg Hm Hc]; intros k.
  - reflexivity.
  - rewrite length_app. simpl length.
    replace (length fl + 1 + k)%nat with (length fl + S k)%nat by lia.
    rewrite IH, for_loop_unfold, (proj2 (Z.leb_le _ _) Hg).
    unfold loop_body. rewrite Hm. simpl. rewrite Hc. reflexivity.
Qed.

(** Conversely, what the loop function computes is an execution,
    followed by a last pass when the loop is left through [break]. *)
Lemma for_loop_exec (fuel : nat) :
  forall st0 fl st f st',
    exec st0 fl st ->
    (Z.to_nat (maxit + 1 - it st) <= fuel)%nat ->
    for_loop fuel st = inr (f, st') ->
    match f with
    | Next => exists fl', exec st0 fl' st'
    | Break =>
        exists fl' st'',
          exec st0 fl' st'' /\ it st'' <= maxit /\
          loop_body st'' = inr (Break, st')
    end.
Proof.
  induction fuel as [|fuel IH]; intros st0 fl st f st' He Hf H.
  - simpl in H. injection H as <- <-. exists fl. exact He.
  - rewrite for_loop_unfold in H.
    destruct (it st <=? maxit) eqn:G.
    + apply Z.leb_le in G.
      apply bind_inr in H. destruct H as [[f2 st2] [Hb H]].
      destruct f2.
      * destruct (exec_pass_body _ _ _ _ He G Hb) as [s He'].
        pose proof (loop_body_it _ _ _ Hb) as Hit.
        eapply IH; [exact He'| |exact H]. simpl. lia.
      * injection H as <- <-. exists fl, st. auto.
    + injection H as <- <-. exists fl. exact He.
Qed.

(** ** Runs of consecutive stable iterations *)

Lemma streak_snoc (fl : list bool) (s : bool) :
  streak (fl ++ [s]) = if s then S (streak fl) else O.
Proof.
  unfold streak. rewrite rev_app_distr. simpl. destruct s; reflexivity.
Qed.

Lemma leading_split (l : list bool) :
  exists rest, l = repeat true (leading l) ++ rest.
Proof.
  induction l as [|[|] l [rest IH]].
  - exists []. reflexivity.
  - exists rest. simpl. rewrite <- IH. reflexivity.
  - exists (false :: l). reflexivity.
Qed.

Lemma leading_repeat (k : nat) (rest : list bool) :
  (k <= leading (repeat true k ++ rest))%nat.
Proof. induction k as [|k IH]; simpl; lia. Qed.

Lemma rev_repeat_true (k : nat) : rev (repeat true k) = repeat true k.
Proof.
  induction k as [|k IH]; [reflexivity|].
  simpl. rewrite IH. symmetry. apply repeat_cons.
Qed.

Lemma streak_suffix (fl : list bool) :
  exists pre, fl = pre ++ repeat true (streak fl).
Proof.
  unfold streak. destruct (leading_split (rev fl)) as [rest H].
  exists (rev rest).
  apply (f_equal (@rev bool)) in H.
  rewrite rev_involutive, rev_app_distr, rev_repeat_true in H.
  exact H.
Qed.

Lemma streak_ge (pre : list bool) (k : nat) :
  (k <= streak (pre ++ repeat true k))%nat.
Proof.
  unfold streak. rewrite rev_app_distr, rev_repeat_true.
  apply leading_repeat.
Qed.

(** In an execution started with [nconv = 0], [nconv] is the length
    of the current run of stable iterations, and it has not reached
    [nconvreq]. *)
Lemma exec_nconv (st0 : LoopState) (fl : list bool) (st : LoopState) :
  1 <= nconvreq ->
  nconv st0 = 0 ->
  exec st0 fl st ->
  nconv st = Z.of_nat (streak fl) /\ nconv st < nconvreq.
Proof.
  intros Hreq H0.
  induction 1 as [|fl st st1 st2 He IH Hg Hm Hc].
  - unfold streak. simpl. lia.
  - destruct IH as [IH1 IH2].
    apply measure_inr in Hm.
    destruct Hm as [len [_ [_ [_ [_ [_ [_ [_ Hn]]]]]]]].
    set (e := log (currentLength st1)) in *.
    assert (Hn0 : 0 <= nconv st1) by lia.
    pose proof (convergence_test_nconv e st1 Hn0) as Hnc.
    pose proof (convergence_test_Break e st1) as Hbr.
    rewrite Hc in Hnc, Hbr. simpl in Hnc, Hbr.
    rewrite streak_snoc. simpl nconv. rewrite Hnc.
    destruct (stable e st1).
    + split; [lia|].
      destruct (Z_lt_le_dec (nconv st1 + 1) nconvreq) as [L|L]; [lia|].
      assert (HB : Next = Break) by (apply Hbr; auto).
      discriminate HB.
    + split; lia.
Qed.

(** ** The length dispatcher *)

(** C8 (as amended).  Whatever the coordinates, when the value the
    [switch] computes for a supported flag ([intaxis], [minlength],
    or the square root of [l2norm2]) is negative, [looplength]
    reports [badlength] on that very call and returns nothing; when
    it is not, that value is returned unchanged.  Hence a value that
    [looplength] returns is never negative: the test of line 213,
    [retval < 0], fails on it.  (It need not be [>= 0]: the test
    also fails on a NaN.) *)
Theorem looplength_never_negative (N0 : nat) (a0 b0 : list double)
  (f : Z) (retval : double) :
  (f = 0 /\ retval = intaxis N0 a0 b0) \/
  (f = 1 /\ retval = minlength N0 a0 b0) \/
  (f = 2 /\ retval = PrimFloat.sqrt (l2norm2 N0 a0 b0)) ->
  ((retval <? 0)%float = true ->
   looplength N0 a0 b0 f = inl badlength) /\
  ((retval <? 0)%float = false ->
   looplength N0 a0 b0 f = inr retval) /\
  (forall len,
     looplength N0 a0 b0 f = inr len -> (len <? 0)%float = false).
Proof.
  intros Hf.
  assert (E : looplength N0 a0 b0 f =
              if (retval <? 0)%float then inl badlength
              else inr retval).
  { destruct Hf as [[-> ->]|[[-> ->]|[-> ->]]]; reflexivity. }
  split; [|split].
  - intros H. rewrite E, H. reflexivity.
  - intros H. rewrite E, H. reflexivity.
  - intros len H. apply looplength_inr in H. apply H.
Qed.

(** ** Invariants of the iteration *)

(** C1 (as amended).  Before the first pass and at the end of the
    measuring part of every pass, [currentLength] is [len - discount]
    where [len] is the value [looplength] has just returned for the
    current coordinates, and [len] is never negative.  That
    [currentLength] itself is not negative is only guaranteed when
    the discount is zero. *)
Theorem currentLength_is_length_minus_discount (st : LoopState) :
  setup = inr st \/ (exists st', measure st' = inr st) ->
  exists len,
    looplength N (a st) (b st) lengthFlag = inr len /\
    (len <? 0)%float = false /\
    currentLength st = (len - discount st)%float /\
    (discount st = 0%float -> (currentLength st <? 0)%float = false).
Proof.
  intros H.
  assert (G : exists len,
             looplength N (a st) (b st) lengthFlag = inr len /\
             currentLength st = (len - discount st)%float).
  { destruct H as [H|[st' H]].
    - unfold setup in H.
      apply bind_inr in H. destruct H as [_ [_ H]].
      apply bind_inr in H. destruct H as [_ [_ H]].
      apply bind_inr in H. destruct H as [len [Hl H]].
      injection H as <-. simpl. exists len. auto.
    - apply measure_inr in H.
      destruct H as [len [Hl [_ [_ [Hc _]]]]]. exists len. auto. }
  destruct G as [len [Hl Hc]].
  pose proof (looplength_inr _ _ _ _ _ Hl) as [Hneg _].
  exists len. repeat split; try assumption.
  intros Hd. rewrite Hc, Hd, sub_zero_r. exact Hneg.
Qed.

Lemma idx1_map_seq (g : nat -> double) (m k : nat) :
  (1 <= k <= m)%nat -> idx1 (map g (seq 1 m)) k = g k.
Proof.
  intros Hk. unfold idx1.
  rewrite (nth_indep _ 0%float (g O))
    by (rewrite length_map, length_seq; lia).
  rewrite map_nth, seq_nth by lia. f_equal. lia.
Qed.

(** C7.  In every pass, the discount and every coordinate [a[k]],
    [b[k]] are divided, with the same binary64 division, by the same
    [currentLength] (the one left by the previous pass, or by the
    set-up); the quotients are what [update_rules] receives and what
    the pass leaves in [discount]. *)
Theorem rescale_same_divisor (st : LoopState) (f : Flow)
  (st2 : LoopState) (k : nat) :
  loop_body st = inr (f, st2) ->
  (1 <= k <= N / 2)%nat ->
  let a1 := fst (fst (rescale st)) in
  let b1 := snd (fst (rescale st)) in
  let d1 := snd (rescale st) in
  d1 = (discount st / currentLength st)%float /\
  idx1 a1 k = (idx1 (a st) k / currentLength st)%float /\
  idx1 b1 k = (idx1 (b st) k / currentLength st)%float /\
  discount st2 = d1 /\
  (a st2, b st2) = update_rules Ngen n braidword a1 b1.
Proof.
  intros Hb Hk. simpl.
  split; [reflexivity|].
  split; [apply (idx1_map_seq
                   (fun j => (idx1 (a st) j / currentLength st)%float));
          exact Hk|].
  split; [apply (idx1_map_seq
                   (fun j => (idx1 (b st) j / currentLength st)%float));
          exact Hk|].
  apply loop_body_inr in Hb. destruct Hb as [st1 [Hm Hc]].
  apply measure_inr in Hm.
  destruct Hm as [len [_ [Hab [Hd _]]]].
  pose proof (convergence_test_fields (log (currentLength st1)) st1) as F.
  rewrite Hc in F. simpl in F.
  destruct F as [_ [Fa [Fb [Fd _]]]].
  rewrite Fa, Fb, Fd. split; assumption.
Qed.

Lemma to_int_small (z : Z) : 0 <= z <= INT_MAX -> to_int z = z.
Proof.
  unfold to_int, INT_MAX. intros H.
  rewrite Z.mod_small by lia. lia.
Qed.

(** C5 (as amended).  For a coordinate vector of length [2m] the
    number of punctures is [n = m + 2].  Under flag 0 the discount
    starts at [n - 1] for a generic loop and at [n - 1 - 1] for a
    fundamental one (binary64 subtractions).  Under any other flag it
    starts at 0, and a pass that divides by a positive
    [currentLength] leaves it at 0. *)
Theorem initial_discount_spec (m : nat) :
  N = (2 * m)%nat ->
  Z.of_nat m + 2 <= INT_MAX ->
  n = Z.of_nat m + 2 /\
  (lengthFlag = 0 ->
   initial_discount =
     if isFundamental
     then (double_of_int (Z.of_nat m + 2) - 1 - 1)%float
     else (double_of_int (Z.of_nat m + 2) - 1)%float) /\
  (lengthFlag <> 0 ->
   initial_discount = 0%float /\
   forall st st1,
     discount st = 0%float ->
     (0 <? currentLength st)%float = true ->
     measure st = inr st1 ->
     discount st1 = 0%float).
Proof.
  intros HN Hm.
  assert (Hn : n = Z.of_nat m + 2).
  { unfold n. rewrite HN.
    replace (2 * m / 2)%nat with m
      by (rewrite Nat.mul_comm, Nat.div_mul; lia).
    rewrite to_int_small; lia. }
  split; [exact Hn|]. split.
  - intros Hf. unfold initial_discount. rewrite Hf, Hn.
    destruct isFundamental; [reflexivity|].
    rewrite sub_zero_r. reflexivity.
  - intros Hf. split.
    + unfold initial_discount.
      destruct lengthFlag; [contradiction|reflexivity|reflexivity].
    + intros st st1 Hd Hpos Hme.
      apply measure_inr in Hme.
      destruct Hme as [len [_ [_ [Hd1 _]]]].
      rewrite Hd1. simpl. rewrite Hd. apply zero_div_pos. exact Hpos.
Qed.

(** ** Leaving the loop *)

Lemma setup_inr (st0 : LoopState) :
  setup = inr st0 ->
  it st0 = 1 /\ nconv st0 = 0 /\ entr0 st0 = (-1)%float /\
  entr st0 = None /\ discount st0 = initial_discount /\
  P_LOOP_IN_M args = 1%nat /\ (N mod 2 = 0)%nat.
Proof.
  unfold setup. intros H.
  destruct (P_LOOP_IN_M args =? 1)%nat eqn:EM; [|discriminate H].
  destruct (N mod 2 =? 0)%nat eqn:EN; [|discriminate H].
  simpl in H. apply bind_inr in H. destruct H as [len [_ H]].
  injection H as <-. simpl.
  apply Nat.eqb_eq in EM. apply Nat.eqb_eq in EN. auto 10.
Qed.

(** C3.  When all [maxit] passes are made, none of them failing or
    taking [break], the call returns normally and the iteration
    count it returns is [maxit + 1].  ([maxit < INT_MAX]: the last
    [++it] does not overflow.) *)
Theorem iterates_after_maxit_passes (st0 : LoopState)
  (fl : list bool) (st : LoopState) :
  0 <= maxit < INT_MAX ->
  setup = inr st0 ->
  exec st0 fl st ->
  Z.of_nat (length fl) = maxit ->
  mexFunction = inr (finish st) /\
  P_ITERATES (finish st) = maxit + 1.
Proof.
  intros Hmax Hs He Hlen.
  pose proof (exec_for_loop _ _ _ He O) as Hfl.
  pose proof (exec_it _ _ _ He) as Hit.
  apply setup_inr in Hs as Hs0. destruct Hs0 as [Hit0 _].
  split.
  - unfold mexFunction, run. rewrite Hs. simpl bind at 2.
    replace (Z.to_nat maxit) with (length fl + 0)%nat by lia.
    rewrite Hfl. reflexivity.
  - simpl. lia.
Qed.

(** C4 (as amended).  On a normal return the iteration count tells
    how the loop was left: it is [maxit + 1] exactly when the loop
    was left through its guard, after [maxit] passes without
    [break]; it lies between 1 and [maxit] when the loop was left
    through [break]. *)
Theorem iterates_signals_exit (f : Flow) (st : LoopState) :
  0 <= maxit < INT_MAX ->
  run = inr (f, st) ->
  mexFunction = inr (finish st) /\
  (f = Next <-> P_ITERATES (finish st) = maxit + 1) /\
  (f = Next ->
   exists st0 fl,
     setup = inr st0 /\ exec st0 fl st /\
     Z.of_nat (length fl) = maxit) /\
  (f = Break -> 1 <= P_ITERATES (finish st) <= maxit).
Proof.
  intros Hmax Hr.
  split; [unfold mexFunction; rewrite Hr; reflexivity|].
  unfold run in Hr. apply bind_inr in Hr.
  destruct Hr as [st0 [Hs Hl]].
  apply setup_inr in Hs as Hs0. destruct Hs0 as [Hit0 _].
  assert (Hfuel : (Z.to_nat (maxit + 1 - it st0) <= Z.to_nat maxit)%nat)
    by lia.
  simpl P_ITERATES.
  destruct f.
  - pose proof (for_loop_Next _ _ _ Hfuel Hl) as Hit.
    split; [split; [lia|reflexivity]|].
    split; [|discriminate].
    intros _.
    pose proof (for_loop_exec _ _ _ _ _ _ (exec_start st0) Hfuel Hl)
      as [fl He].
    pose proof (exec_it _ _ _ He) as Hit'.
    exists st0, fl. repeat split; [exact Hs|exact He|lia].
  - pose proof (for_loop_Break _ _ _ Hl) as Hit.
    split; [split; [discriminate|lia]|].
    split; [discriminate|]. intros _. lia.
Qed.

(** C6.  In an execution of the loop (with [nconvreq >= 1]), a pass
    whose test of line 156 fails leaves [nconv] at exactly zero and
    does not take [break]; and a pass takes [break] exactly when the
    outcomes of the test, in the passes made so far and this one,
    end with [nconvreq] successes in a row. *)
Theorem convergence_streak (st0 : LoopState) (fl : list bool)
  (st st1 : LoopState) (f : Flow) (st2 : LoopState) :
  1 <= nconvreq ->
  nconv st0 = 0 ->
  exec st0 fl st ->
  measure st = inr st1 ->
  convergence_test (log (currentLength st1)) st1 = (f, st2) ->
  let s := stable (log (currentLength st1)) st1 in
  (s = false -> f = Next /\ nconv st2 = 0) /\
  (f = Break <->
   exists pre, fl ++ [s] = pre ++ repeat true (Z.to_nat nconvreq)).
Proof.
  intros Hreq H0 He Hm Hc s.
  destruct (exec_nconv _ _ _ Hreq H0 He) as [Hn Hlt].
  apply measure_inr in Hm.
  destruct Hm as [len [_ [_ [_ [_ [_ [_ [_ Hn1]]]]]]]].
  set (e := log (currentLength st1)) in *.
  assert (Hn0 : 0 <= nconv st1) by lia.
  pose proof (convergence_test_nconv e st1 Hn0) as Hnc.
  pose proof (convergence_test_Break e st1) as Hbr.
  rewrite Hc in Hnc, Hbr. simpl in Hnc, Hbr. fold s in Hnc, Hbr.
  split.
  - intros Hs. rewrite Hs in Hnc. split; [|exact Hnc].
    destruct f; [reflexivity|].
    destruct Hbr as [Hbr _]. destruct (Hbr eq_refl) as [Hbr' _].
    rewrite Hs in Hbr'. discriminate Hbr'.
  - rewrite Hbr. split.
    + intros [Hs Hge]. rewrite Hs.
      destruct (streak_suffix fl) as [pre Hpre].
      exists pre. rewrite Hpre at 1. rewrite <- app_assoc.
      f_equal.
      replace (Z.to_nat nconvreq) with (S (streak fl)) by lia.
      symmetry. apply repeat_cons.
    + intros [pre Hpre].
      replace (Z.to_nat nconvreq)
        with (S (Z.to_nat (nconvreq - 1))) in Hpre by lia.
      cbn [repeat] in Hpre.
      rewrite repeat_cons, app_assoc in Hpre.
      apply app_inj_tail in Hpre. destruct Hpre as [Hfl Hs].
      split; [exact Hs|].
      pose proof (streak_ge pre (Z.to_nat (nconvreq - 1))) as Hge.
      rewrite <- Hfl in Hge. lia.
Qed.

(** C9.  With a length flag other than 0, 1 and 2 the call always
    ends in an error and produces no output; whenever the loop
    argument has one row and an even number of columns, the error is
    [badlengthflag], raised by the first call of [looplength] (line
    133), before the loop is entered. *)
Theorem unsupported_flag_is_fatal :
  lengthFlag <> 0 -> lengthFlag <> 1 -> lengthFlag <> 2 ->
  (exists e, mexFunction = inl e) /\
  (P_LOOP_IN_M args = 1%nat -> (N mod 2 = 0)%nat ->
   looplength N a_in b_in lengthFlag = inl badlengthflag /\
   setup = inl badlengthflag /\
   mexFunction = inl badlengthflag).
Proof.
  intros H0 H1 H2.
  pose proof (looplength_badflag N a_in b_in lengthFlag H0 H1 H2) as Hl.
  assert (Hs : exists e, setup = inl e).
  { unfold setup.
    destruct (negb (P_LOOP_IN_M args =? 1)%nat);
      [exists badarg; reflexivity|].
    destruct (negb (N mod 2 =? 0)%nat);
      [exists badarg; reflexivity|].
    simpl. rewrite Hl. exists badlengthflag. reflexivity. }
  split.
  - destruct Hs as [e Hs]. exists e.
    unfold mexFunction, run. rewrite Hs. reflexivity.
  - intros HM HN. split; [exact Hl|].
    assert (Hs' : setup = inl badlengthflag).
    { unfold setup. rewrite HM, HN. simpl. rewrite Hl. reflexivity. }
    split; [exact Hs'|].
    unfold mexFunction, run. rewrite Hs'. reflexivity.
Qed.

(** C10.  [entr0] is [-1] when the loop is entered, and the first
    pass compares its [entr] with it as with any earlier value: if
    they differ by less than [tol] and [nconvreq] is 1, [break] is
    taken in the first pass and the call returns the iteration
    count 1. *)
Theorem first_pass_compares_with_sentinel (st0 st1 : LoopState) :
  1 <= maxit ->
  nconvreq = 1 ->
  setup = inr st0 ->
  measure st0 = inr st1 ->
  (PrimFloat.abs (log (currentLength st1) - (-1)) <? tol)%float
    = true ->
  entr0 st0 = (-1)%float /\
  exists out,
    mexFunction = inr out /\
    P_ITERATES out = 1 /\
    P_ENTROPY out = Some (log (currentLength st1)).
Proof.
  intros Hmax Hreq Hs Hm Hst.
  apply setup_inr in Hs as Hs0.
  destruct Hs0 as [Hit0 [Hn0 [He0 _]]].
  split; [exact He0|].
  apply measure_inr in Hm as Hm0.
  destruct Hm0 as [len [_ [_ [_ [_ [Hen [Hit1 [He1 Hn1]]]]]]]].
  set (e := log (currentLength st1)) in *.
  assert (Hstable : stable e st1 = true).
  { unfold stable. rewrite He1, He0. exact Hst. }
  pose proof (proj2 (convergence_test_Break e st1)) as Hbr.
  destruct (convergence_test e st1) as [f st2] eqn:Hc.
  simpl in Hbr. rewrite Hbr in Hc by (split; [exact Hstable|lia]).
  pose proof (convergence_test_fields e st1) as F.
  rewrite Hc in F. simpl in F. destruct F as [Fi [_ [_ [_ [_ Fe]]]]].
  exists (finish st2). split; [|split].
  - unfold mexFunction, run. rewrite Hs. simpl bind at 2.
    replace (Z.to_nat maxit) with (S (Z.to_nat (maxit - 1))) by lia.
    rewrite for_loop_unfold.
    replace (it st0 <=? maxit) with true by (symmetry; apply Z.leb_le; lia).
    unfold loop_body. rewrite Hm. simpl. fold e. rewrite Hc.
    reflexivity.
  - simpl. lia.
  - simpl. congruence.
Qed.

(** ** More facts on binary64 arithmetic *)

Lemma sqrt_not_negative (x : double) :
  (PrimFloat.sqrt x <? 0)%float = false.
Proof.
  rewrite ltb_spec, sqrt_spec.
  change (Prim2SF 0) with (S754_zero false).
  destruct (Prim2SF x) as [[|]|[|]| |[|] m e]; try reflexivity.
  unfold SF64sqrt, SFsqrt.
  destruct (SFsqrt_core_binary prec emax (Z.pos m) e) as [[mz ez] lz].
  unfold binary_round_aux.
  destruct (shr_fexp prec emax mz ez lz) as [mrs' e'].
  destruct (shr_fexp prec emax _ e' loc_Exact) as [mrs'' e''].
  destruct (shr_m mrs'') as [|p|p]; try reflexivity.
  destruct (e'' <=? emax - prec)%Z; reflexivity.
Qed.

Lemma SFcompare_refl_finite (s : bool) (m : positive) (e : Z) :
  SFcompare (S754_finite s m e) (S754_finite s m e) = Some Eq.
Proof.
  simpl. rewrite Z.compare_refl, Pos.compare_cont_refl.
  destruct s; reflexivity.
Qed.

Lemma is_finite_spec (x : double) :
  is_finite x = sf_finite (Prim2SF x).
Proof.
  unfold is_finite, is_nan, is_infinity.
  rewrite !eqb_spec, abs_spec. unfold SFeqb.
  change (Prim2SF infinity) with (S754_infinity false).
  destruct (Prim2SF x) as [s|s| |s m e] eqn:E; try reflexivity.
  - destruct s; reflexivity.
  - rewrite SFcompare_refl_finite. reflexivity.
Qed.

Lemma SFabs_binary_round_aux (s : bool) (mx ex : Z) (lx : location) :
  SFabs (binary_round_aux prec emax s mx ex lx) =
  SFabs (binary_round_aux prec emax false mx ex lx).
Proof.
  unfold binary_round_aux.
  destruct (shr_fexp prec emax mx ex lx) as [mrs' e'].
  destruct (shr_fexp prec emax _ e' loc_Exact) as [mrs'' e''].
  destruct (shr_m mrs'') as [|p|p]; try reflexivity.
  destruct (e'' <=? emax - prec)%Z; reflexivity.
Qed.

Lemma SFabs_binary_normalize_opp (m e : Z) :
  SFabs (binary_normalize prec emax (- m) e false) =
  SFabs (binary_normalize prec emax m e false).
Proof.
  destruct m as [|p|p]; simpl; try reflexivity.
  - unfold binary_round.
    destruct (shl_align p e _) as [mz ez].
    apply SFabs_binary_round_aux.
  - unfold binary_round.
    destruct (shl_align p e _) as [mz ez].
    symmetry. apply SFabs_binary_round_aux.
Qed.

(** Rounding is symmetric: [x - y] and [y - x] have the same
    magnitude. *)
Lemma abs_sub_comm (x y : double) :
  PrimFloat.abs (x - y) = PrimFloat.abs (y - x).
Proof.
  apply Prim2SF_inj. rewrite !abs_spec, !sub_spec.
  destruct (Prim2SF x) as [[|]|[|]| |sx mx ex];
    destruct (Prim2SF y) as [[|]|[|]| |sy my ey]; try reflexivity.
  unfold SF64sub, SFsub.
  rewrite (Z.min_comm ey ex).
  rewrite <- SFabs_binary_normalize_opp. f_equal. f_equal. lia.
Qed.

Lemma sub_diag_finite (x : double) :
  is_finite x = true -> (x - x)%float = 0%float.
Proof.
  rewrite is_finite_spec. intros H.
  apply Prim2SF_inj. rewrite sub_spec.
  change (Prim2SF 0) with (S754_zero false).
  destruct (Prim2SF x) as [[|]|s| |s m e]; try discriminate H;
    try reflexivity.
  unfold SF64sub, SFsub. rewrite Z.sub_diag. reflexivity.
Qed.

Lemma sub_diag_not_finite (x : double) :
  is_finite x = false -> Prim2SF (x - x)%float = S754_nan.
Proof.
  rewrite is_finite_spec, sub_spec. intros H.
  destruct (Prim2SF x) as [s|[|]| |s m e]; try discriminate H;
    reflexivity.
Qed.

Lemma SFltb_abs_inv (d t : spec_float) :
  SFltb (SFabs d) t = true ->
  sf_finite d = true /\ SFltb (S754_zero false) t = true.
Proof.
  destruct d as [sd|sd| |sd md ed];
    destruct t as [[|]|[|]| |[|] mt et];
    simpl; intros H; try discriminate H; split; reflexivity.
Qed.

Lemma SFsub_finite_inv (x y : spec_float) :
  sf_finite (SF64sub x y) = true ->
  sf_finite x = true /\ sf_finite y = true.
Proof.
  destruct x as [[|]|[|]| |sx mx ex];
    destruct y as [[|]|[|]| |sy my ey];
    try (intros _; split; reflexivity);
    simpl; intros H; discriminate H.
Qed.

(** A magnitude [|x - y|] below a bound: the bound is positive and
    [x] and [y] are finite (a NaN operand gives NaN, an infinite one
    gives an infinite or NaN difference, and neither is below
    anything). *)
Lemma abs_sub_ltb_inv (x y t : double) :
  (PrimFloat.abs (x - y) <? t)%float = true ->
  is_finite x = true /\ is_finite y = true /\ (0 <? t)%float = true.
Proof.
  rewrite !ltb_spec, abs_spec, sub_spec, !is_finite_spec.
  change (Prim2SF 0) with (S754_zero false).
  intros H. apply SFltb_abs_inv in H. destruct H as [Hd Ht].
  apply SFsub_finite_inv in Hd. destruct Hd as [Hx Hy]. auto.
Qed.

(** ** [eqfuzzy] *)

(** X1.  [eqfuzzy] is symmetric in the two numbers it compares,
    whatever they are (NaN and infinities included). *)
Theorem eqfuzzy_sym (x y AbsTol : double) :
  eqfuzzy x y AbsTol = eqfuzzy y x AbsTol.
Proof. unfold eqfuzzy. rewrite abs_sub_comm. reflexivity. Qed.

(** X2.  A number is fuzzily equal to itself exactly when it is finite
    and the tolerance is positive: [eqfuzzy] is not reflexive on NaN
    nor on infinities ([inf - inf] is NaN), nor under a zero, negative
    or NaN tolerance. *)
Theorem eqfuzzy_refl (x AbsTol : double) :
  eqfuzzy x x AbsTol = is_finite x && (0 <? AbsTol)%float.
Proof.
  unfold eqfuzzy. destruct (is_finite x) eqn:F.
  - rewrite sub_diag_finite by exact F. reflexivity.
  - rewrite ltb_spec, abs_spec, (sub_diag_not_finite _ F). reflexivity.
Qed.

(** X3.  [eqfuzzy] only answers [true] on two finite numbers and under
    a positive tolerance. *)
Theorem eqfuzzy_true_finite (x y AbsTol : double) :
  eqfuzzy x y AbsTol = true ->
  is_finite x = true /\ is_finite y = true /\
  (0 <? AbsTol)%float = true.
Proof. unfold eqfuzzy. apply abs_sub_ltb_inv. Qed.

(** ** Errors of the call *)

Lemma looplength_inl (N0 : nat) (a0 b0 : list double) (f : Z)
  (e : mexError) :
  looplength N0 a0 b0 f = inl e ->
  (e = badlengthflag /\ f <> 0 /\ f <> 1 /\ f <> 2) \/
  (e = badlength /\
   ((f = 0 /\ (intaxis N0 a0 b0 <? 0)%float = true) \/
    (f = 1 /\ (minlength N0 a0 b0 <? 0)%float = true))).
Proof.
  destruct (Z.eq_dec f 0) as [->|H0];
    [|destruct (Z.eq_dec f 1) as [->|H1];
      [|destruct (Z.eq_dec f 2) as [->|H2]]].
  - unfold looplength. simpl.
    destruct (intaxis N0 a0 b0 <? 0)%float eqn:E; intros H;
      [|discriminate H].
    injection H as <-. right. auto.
  - unfold looplength. simpl.
    destruct (minlength N0 a0 b0 <? 0)%float eqn:E; intros H;
      [|discriminate H].
    injection H as <-. right. auto.
  - unfold looplength. simpl. rewrite sqrt_not_negative.
    intros H. discriminate H.
  - rewrite looplength_badflag by assumption.
    intros H. injection H as <-. left. auto.
Qed.

(** X4.  Under flag 2 [looplength] never reports an error: whatever
    [l2norm2] answers (negative, NaN, ...), the square root of it is
    returned, since a square root is never below zero. *)
Theorem looplength_euclidean_total (N0 : nat) (a0 b0 : list double) :
  looplength N0 a0 b0 2 = inr (PrimFloat.sqrt (l2norm2 N0 a0 b0)).
Proof.
  unfold looplength. simpl. rewrite sqrt_not_negative. reflexivity.
Qed.

Lemma measure_inl (st : LoopState) (e : mexError) :
  measure st = inl e ->
  exists a0 b0, looplength N a0 b0 lengthFlag = inl e.
Proof.
  unfold measure.
  destruct (rescale st) as [[a1 b1] d1].
  destruct (update_rules Ngen n braidword a1 b1) as [a2 b2].
  destruct (looplength N a2 b2 lengthFlag) as [e'|len] eqn:E;
    simpl; intros H; [|discriminate H].
  injection H as <-. eauto.
Qed.

Lemma for_loop_inl (fuel : nat) :
  forall st e,
    for_loop fuel st = inl e ->
    exists a0 b0, looplength N a0 b0 lengthFlag = inl e.
Proof.
  induction fuel as [|fuel IH]; intros st e H.
  - discriminate H.
  - rewrite for_loop_unfold in H.
    destruct (it st <=? maxit); [|discriminate H].
    unfold loop_body in H.
    destruct (measure st) as [e'|st1] eqn:Hm.
    + injection H as <-. eapply measure_inl; eassumption.
    + simpl in H.
      destruct (convergence_test (log (currentLength st1)) st1)
        as [[|] st2]; [|discriminate H].
      eapply IH; eassumption.
Qed.

(** Where an error of the call comes from: the shape checks of lines
    88-97, or a call of [looplength]. *)
Lemma mexFunction_inl (e : mexError) :
  mexFunction = inl e ->
  (e = badarg /\ (P_LOOP_IN_M args <> 1%nat \/ (N mod 2 <> 0)%nat)) \/
  (P_LOOP_IN_M args = 1%nat /\ (N mod 2 = 0)%nat /\
   exists a0 b0, looplength N a0 b0 lengthFlag = inl e).
Proof.
  unfold mexFunction, run, setup.
  destruct (P_LOOP_IN_M args =? 1)%nat eqn:EM.
  - apply Nat.eqb_eq in EM.
    destruct (N mod 2 =? 0)%nat eqn:EN.
    + apply Nat.eqb_eq in EN. simpl.
      destruct (looplength N a_in b_in lengthFlag) as [e'|len] eqn:El.
      * simpl. intros H. injection H as <-. right. eauto.
      * simpl.
        match goal with
        | |- context [for_loop ?k ?s] =>
            destruct (for_loop k s) as [e'|r] eqn:Ef
        end; simpl; intros H; [|discriminate H].
        injection H as <-. right.
        split; [exact EM|split; [exact EN|]].
        eapply for_loop_inl; eassumption.
    + apply Nat.eqb_neq in EN. simpl.
      intros H. injection H as <-. left. auto.
  - apply Nat.eqb_neq in EM. simpl.
    intros H. injection H as <-. left. auto.
Qed.

Lemma mexFunction_badshape :
  P_LOOP_IN_M args <> 1%nat \/ (N mod 2 <> 0)%nat ->
  mexFunction = inl badarg.
Proof.
  intros H. unfold mexFunction, run, setup.
  destruct (P_LOOP_IN_M args =? 1)%nat eqn:EM; [|reflexivity].
  apply Nat.eqb_eq in EM.
  destruct (N mod 2 =? 0)%nat eqn:EN; [|reflexivity].
  apply Nat.eqb_eq in EN. destruct H; contradiction.
Qed.

(** X5.  The call ends in [badarg] exactly when the loop argument does
    not have one row or has an odd number of columns: the shape is
    checked before anything else (a bad shape wins over a bad length
    flag), and nothing after the checks reports [badarg]. *)
Theorem badarg_iff_bad_shape :
  mexFunction = inl badarg <->
  (P_LOOP_IN_M args <> 1%nat \/ (N mod 2 <> 0)%nat).
Proof.
  split; [|apply mexFunction_badshape].
  intros H. apply mexFunction_inl in H.
  destruct H as [[_ H]|[_ [_ [a0 [b0 H]]]]]; [exact H|].
  apply looplength_inl in H.
  destruct H as [[H _]|[H _]]; discriminate H.
Qed.

(** X6.  The call ends in [badlengthflag] exactly when the loop
    argument has the right shape and the length flag is none of 0, 1
    and 2: with a supported flag, no pass of the loop reports it. *)
Theorem badlengthflag_iff_unsupported_flag :
  mexFunction = inl badlengthflag <->
  (P_LOOP_IN_M args = 1%nat /\ (N mod 2 = 0)%nat /\
   lengthFlag <> 0 /\ lengthFlag <> 1 /\ lengthFlag <> 2).
Proof.
  split.
  - intros H. apply mexFunction_inl in H.
    destruct H as [[H _]|[HM [HN [a0 [b0 H]]]]]; [discriminate H|].
    apply looplength_inl in H.
    destruct H as [[_ H]|[H _]]; [auto|discriminate H].
  - intros [HM [HN [H0 [H1 H2]]]].
    unfold mexFunction, run, setup. rewrite HM, HN. simpl.
    rewrite looplength_badflag by assumption. reflexivity.
Qed.

(** X7.  When the call ends in [badlength], the loop argument has the
    right shape, the flag is 0 or 1, and the length function of that
    flag has answered a negative number on some coordinates: flag 2
    never leads to [badlength]. *)
Theorem badlength_only_from_negative_length :
  mexFunction = inl badlength ->
  P_LOOP_IN_M args = 1%nat /\ (N mod 2 = 0)%nat /\
  exists a0 b0,
    (lengthFlag = 0 /\ (intaxis N a0 b0 <? 0)%float = true) \/
    (lengthFlag = 1 /\ (minlength N a0 b0 <? 0)%float = true).
Proof.
  intros H. apply mexFunction_inl in H.
  destruct H as [[H _]|[HM [HN [a0 [b0 H]]]]]; [discriminate H|].
  split; [exact HM|split; [exact HN|]].
  apply looplength_inl in H.
  destruct H as [[H _]|[_ H]]; [discriminate H|].
  exists a0, b0. exact H.
Qed.


(** ** The coordinate store *)

Lemma nth_map_seq (g : nat -> double) (m i : nat) (d : double) :
  (i < m)%nat -> nth i (map g (seq 1 m)) d = g (S i).
Proof.
  intros Hi.
  rewrite (nth_indep _ d (g O)) by (rewrite length_map, length_seq; lia).
  rewrite map_nth, seq_nth by lia. reflexivity.
Qed.

Lemma halves_app (m : nat) (l : list double) :
  length l = (2 * m)%nat ->
  map (fun k => nth (k - 1) l 0%float) (seq 1 m) ++
  map (fun k => nth (k - 1 + m) l 0%float) (seq 1 m) = l.
Proof.
  intros Hl. apply nth_ext with (d := 0%float) (d' := 0%float).
  - rewrite length_app, !length_map, !length_seq. lia.
  - intros i Hi.
    rewrite length_app, !length_map, !length_seq in Hi.
    destruct (Nat.lt_ge_cases i m) as [L|L].
    + rewrite app_nth1 by (rewrite length_map, length_seq; exact L).
      rewrite nth_map_seq by exact L. f_equal. lia.
    + rewrite app_nth2 by (rewrite length_map, length_seq; exact L).
      rewrite length_map, length_seq.
      rewrite nth_map_seq by lia. f_equal. lia.
Qed.

Lemma map_idx1_seq (m : nat) (l : list double) :
  length l = m -> map (fun k => idx1 l k) (seq 1 m) = l.
Proof.
  intros Hl. apply nth_ext with (d := 0%float) (d' := 0%float).
  - rewrite length_map, length_seq. lia.
  - intros i Hi. rewrite length_map, length_seq in Hi.
    rewrite nth_map_seq by exact Hi. unfold idx1. f_equal. lia.
Qed.

Lemma even_N_halves : (N mod 2 = 0)%nat -> length u = (2 * (N / 2))%nat.
Proof.
  intros H. fold N. pose proof (Nat.div_mod_eq N 2) as E. lia.
Qed.

(** X9.  Round trip of the coordinate store.  For a loop argument with
    an even number of columns, the copies of lines 109-113 split it in
    its two halves ([a] first, [b] second, each of [N/2] cells), and
    the copy of line 184 applied to these halves gives the loop
    argument back. *)
Theorem store_round_trip (st : LoopState) :
  (N mod 2 = 0)%nat ->
  a st = a_in ->
  b st = b_in ->
  length a_in = (N / 2)%nat /\ length b_in = (N / 2)%nat /\
  a_in ++ b_in = u /\
  P_LOOP_OUT (finish st) = u.
Proof.
  intros HN Ha Hb.
  assert (La : length a_in = (N / 2)%nat)
    by (unfold a_in; rewrite length_map, length_seq; reflexivity).
  assert (Lb : length b_in = (N / 2)%nat)
    by (unfold b_in; rewrite length_map, length_seq; reflexivity).
  assert (Hu : a_in ++ b_in = u)
    by (apply halves_app, even_N_halves, HN).
  repeat split; try assumption.
  simpl. rewrite Ha, Hb, !map_idx1_seq by assumption. exact Hu.
Qed.

Lemma setup_inr_store (st0 : LoopState) :
  setup = inr st0 -> a st0 = a_in /\ b st0 = b_in.
Proof.
  unfold setup. intros H.
  apply bind_inr in H. destruct H as [_ [_ H]].
  apply bind_inr in H. destruct H as [_ [_ H]].
  apply bind_inr in H. destruct H as [len [_ H]].
  injection H as <-. split; reflexivity.
Qed.

(** X10.  With [maxit <= 0] no pass is made: whenever the set-up
    succeeds, the call returns the iteration count 1, the loop argument
    unchanged, and an entropy that was never assigned. *)
Theorem no_pass_when_maxit_not_positive (st0 : LoopState) :
  maxit <= 0 ->
  setup = inr st0 ->
  mexFunction =
    inr {| P_ENTROPY := None; P_ITERATES := 1; P_LOOP_OUT := u |}.
Proof.
  intros Hmax Hs.
  pose proof (setup_inr _ Hs) as [Hit [_ [_ [He [_ [_ HN]]]]]].
  pose proof (setup_inr_store _ Hs) as [Ha Hb].
  pose proof (store_round_trip st0 HN Ha Hb) as [_ [_ [_ Hout]]].
  unfold mexFunction, run. rewrite Hs. cbn [bind].
  replace (Z.to_nat maxit) with O by lia.
  cbn [for_loop bind ret snd].
  unfold finish in *. cbn [P_LOOP_OUT] in Hout.
  rewrite Hout, Hit, He. reflexivity.
Qed.

(** X11.  Whenever the call returns, the loop it returns has as many
    columns as the loop argument. *)
Theorem output_has_input_length (out : Out) :
  mexFunction = inr out -> length (P_LOOP_OUT out) = N.
Proof.
  unfold mexFunction. intros H.
  apply bind_inr in H. destruct H as [[f st] [Hr H]].
  injection H as <-. cbn [snd finish P_LOOP_OUT].
  unfold run in Hr. apply bind_inr in Hr. destruct Hr as [st0 [Hs _]].
  pose proof (setup_inr _ Hs) as [_ [_ [_ [_ [_ [_ HN]]]]]].
  rewrite length_app, !length_map, !length_seq.
  pose proof (Nat.div_mod_eq N 2) as E. lia.
Qed.

(** ** The value returned as entropy *)

Lemma loop_body_entr (st : LoopState) (f : Flow) (st2 : LoopState) :
  loop_body st = inr (f, st2) ->
  entr st2 = Some (log (currentLength st2)).
Proof.
  intros H. apply loop_body_inr in H. destruct H as [st1 [Hm Hc]].
  apply measure_inr in Hm.
  destruct Hm as [len [_ [_ [_ [_ [He _]]]]]].
  pose proof (convergence_test_fields (log (currentLength st1)) st1) as F.
  rewrite Hc in F. simpl in F.
  destruct F as [_ [_ [_ [_ [Fc Fe]]]]]. congruence.
Qed.

Lemma for_loop_entr (fuel : nat) :
  forall st f st',
    entr st = Some (log (currentLength st)) ->
    for_loop fuel st = inr (f, st') ->
    entr st' = Some (log (currentLength st')).
Proof.
  induction fuel as [|fuel IH]; intros st f st' He H.
  - injection H as <- <-. exact He.
  - rewrite for_loop_unfold in H.
    destruct (it st <=? maxit); [|injection H as <- <-; exact He].
    apply bind_inr in H. destruct H as [[f2 st2] [Hb H]].
    apply loop_body_entr in Hb.
    destruct f2.
    + eapply IH; [|exact H]. exact Hb.
    + injection H as <- <-. exact Hb.
Qed.

(** X12.  On a normal return, the entropy is left unassigned exactly
    when [maxit <= 0]; as soon as one pass is made it is the logarithm
    of the last [currentLength]. *)
Theorem entropy_unassigned_iff_no_pass (f : Flow) (st : LoopState) :
  run = inr (f, st) ->
  (P_ENTROPY (finish st) = None <-> maxit <= 0) /\
  (1 <= maxit ->
   P_ENTROPY (finish st) = Some (log (currentLength st))).
Proof.
  intros Hr. simpl P_ENTROPY.
  unfold run in Hr. apply bind_inr in Hr. destruct Hr as [st0 [Hs Hl]].
  pose proof (setup_inr _ Hs) as [Hit [_ [_ [He _]]]].
  assert (Hpos : 1 <= maxit -> entr st = Some (log (currentLength st))).
  { intros Hmax.
    replace (Z.to_nat maxit) with (S (Z.to_nat (maxit - 1))) in Hl by lia.
    rewrite for_loop_unfold in Hl.
    replace (it st0 <=? maxit) with true in Hl
      by (symmetry; apply Z.leb_le; lia).
    apply bind_inr in Hl. destruct Hl as [[f2 st2] [Hb Hl]].
    apply loop_body_entr in Hb.
    destruct f2.
    - eapply for_loop_entr; [|exact Hl]. exact Hb.
    - injection Hl as <- <-. exact Hb. }
  split; [split|exact Hpos].
  - intros Hn. destruct (Z_le_gt_dec maxit 0) as [L|G]; [exact L|].
    rewrite Hpos in Hn by lia. discriminate Hn.
  - intros Hmax.
    replace (Z.to_nat maxit) with O in Hl by lia.
    injection Hl as <- <-. exact He.
Qed.

(** ** Leaving the loop through [break] *)

Lemma convergence_test_Break_state (e : double) (st st' : LoopState) :
  convergence_test e st = (Break, st') ->
  stable e st = true /\ nconvreq <= nconv st + 1 /\
  entr0 st' = entr0 st /\ nconv st' = nconv st + 1.
Proof.
  unfold convergence_test.
  destruct (stable e st).
  - destruct (nconv st + 1 >=? nconvreq) eqn:E; intros H;
      [|discriminate H].
    injection H as <-. simpl. repeat split. lia.
  - destruct (nconv st >? 0); intros H; discriminate H.
Qed.

Lemma convergence_test_unstable (e : double) (st : LoopState) :
  stable e st = false ->
  0 <= nconv st ->
  exists st',
    convergence_test e st = (Next, st') /\ nconv st' = 0 /\
    entr0 st' = e.
Proof.
  intros Hs Hn. unfold convergence_test. rewrite Hs.
  destruct (nconv st >? 0) eqn:E; eexists; split; try reflexivity;
    simpl; split; try reflexivity. lia.
Qed.

Lemma for_loop_Break_pass (fuel : nat) :
  forall st st',
    for_loop fuel st = inr (Break, st') ->
    exists st1,
      convergence_test (log (currentLength st1)) st1 = (Break, st') /\
      it st1 <= maxit.
Proof.
  induction fuel as [|fuel IH]; intros st st' H.
  - discriminate H.
  - rewrite for_loop_unfold in H.
    destruct (it st <=? maxit) eqn:G; [|discriminate H].
    apply Z.leb_le in G.
    apply bind_inr in H. destruct H as [[f st2] [Hb H]].
    destruct f.
    + eapply IH. exact H.
    + injection H as <-.
      apply loop_body_inr in Hb. destruct Hb as [st1 [Hm Hc]].
      exists st1. split; [exact Hc|].
      apply measure_inr in Hm.
      destruct Hm as [len [_ [_ [_ [_ [_ [Hit _]]]]]]]. lia.
Qed.

(** What the state left by [break] satisfies: the test of line 156
    holds in it. *)
Lemma for_loop_Break_stable (fuel : nat) (st st' : LoopState) :
  for_loop fuel st = inr (Break, st') ->
  stable (log (currentLength st')) st' = true /\
  entr st' = Some (log (currentLength st')) /\
  nconvreq <= nconv st'.
Proof.
  intros H.
  pose proof (for_loop_Break_pass _ _ _ H) as [st1 [Hc _]].
  pose proof (convergence_test_fields (log (currentLength st1)) st1) as F.
  rewrite Hc in F. simpl in F. destruct F as [_ [_ [_ [_ [Fc _]]]]].
  apply convergence_test_Break_state in Hc.
  destruct Hc as [Hs [Hn [He0 Hn']]].
  split; [|split].
  - unfold stable in *. rewrite Fc, He0. exact Hs.
  - clear - H. revert st H.
    induction fuel as [|fuel IH]; intros st H; [discriminate H|].
    rewrite for_loop_unfold in H.
    destruct (it st <=? maxit); [|discriminate H].
    apply bind_inr in H. destruct H as [[f st2] [Hb H]].
    destruct f; [eapply IH; exact H|].
    injection H as <-. eapply loop_body_entr. exact Hb.
  - lia.
Qed.

(** X13.  When the loop is left through [break], the entropy returned
    is the logarithm of the last [currentLength], it is finite, and it
    differs by less than [tol] from the value it was compared with
    ([entr0], itself finite); [tol] is positive, [nconv] has reached
    [nconvreq], and the iteration count is between 1 and [maxit]. *)
Theorem break_returns_stable_finite_entropy (st : LoopState) :
  run = inr (Break, st) ->
  P_ENTROPY (finish st) = Some (log (currentLength st)) /\
  eqfuzzy (log (currentLength st)) (entr0 st) tol = true /\
  is_finite (log (currentLength st)) = true /\
  is_finite (entr0 st) = true /\
  (0 <? tol)%float = true /\
  nconvreq <= nconv st /\
  1 <= P_ITERATES (finish st) <= maxit.
Proof.
  intros Hr. unfold run in Hr.
  apply bind_inr in Hr. destruct Hr as [st0 [Hs Hl]].
  pose proof (setup_inr _ Hs) as [Hit _].
  pose proof (for_loop_Break_stable _ _ _ Hl) as [Hst [He Hn]].
  pose proof (for_loop_Break _ _ _ Hl) as Hb.
  pose proof (abs_sub_ltb_inv _ _ _ Hst) as [F1 [F2 F3]].
  simpl P_ENTROPY. simpl P_ITERATES.
  repeat split; try assumption; lia.
Qed.

(** X14.  Under a tolerance that is not positive (zero, negative or
    NaN) the loop is never left through [break]: a call that returns
    has made all its passes, and its iteration count is [maxit + 1]
    (1 when [maxit] is negative). *)
Theorem no_break_without_positive_tol (f : Flow) (st : LoopState) :
  (0 <? tol)%float = false ->
  run = inr (f, st) ->
  f = Next /\ P_ITERATES (finish st) = Z.max 1 (maxit + 1).
Proof.
  intros Ht Hr. unfold run in Hr.
  apply bind_inr in Hr. destruct Hr as [st0 [Hs Hl]].
  pose proof (setup_inr _ Hs) as [Hit _].
  destruct f.
  - split; [reflexivity|]. simpl.
    rewrite (for_loop_Next (Z.to_nat maxit) st0 st) by (exact Hl || lia).
    rewrite Hit. reflexivity.
  - pose proof (for_loop_Break_stable _ _ _ Hl) as [Hst _].
    apply abs_sub_ltb_inv in Hst. destruct Hst as [_ [_ Hst]].
    congruence.
Qed.

(** X15.  A pass whose estimate [entr] is not finite (the logarithm of
    a zero, negative or NaN length), or which compares it with an
    [entr0] that is not finite, never counts as stable: it does not
    take [break], it leaves [nconv] at zero, and it records its
    estimate in [entr0]. *)
Theorem non_finite_estimate_resets_streak (st st1 : LoopState) :
  measure st = inr st1 ->
  0 <= nconv st ->
  is_finite (log (currentLength st1)) = false \/
  is_finite (entr0 st) = false ->
  exists st2,
    loop_body st = inr (Next, st2) /\ nconv st2 = 0 /\
    entr0 st2 = log (currentLength st1).
Proof.
  intros Hm Hn Hf.
  pose proof (measure_inr _ _ Hm)
    as [len [_ [_ [_ [_ [_ [_ [He0 Hn1]]]]]]]].
  assert (Hs : stable (log (currentLength st1)) st1 = false).
  { destruct (stable (log (currentLength st1)) st1) eqn:E;
      [|reflexivity].
    apply abs_sub_ltb_inv in E. destruct E as [F1 [F2 _]].
    rewrite He0 in F2. destruct Hf; congruence. }
  destruct (convergence_test_unstable _ _ Hs) as [st2 [Hc [H0 He]]];
    [lia|].
  exists st2. unfold loop_body. rewrite Hm. simpl. rewrite Hc. auto.
Qed.

(** X16.  With [nconvreq <= 1] (zero and negative values included) the
    first pass whose test of line 156 holds takes [break]: in an
    execution that has not left the loop, every pass made so far has
    failed the test and [nconv] is still zero. *)
Theorem first_stable_pass_breaks (st0 : LoopState) (fl : list bool)
  (st : LoopState) :
  nconvreq <= 1 ->
  nconv st0 = 0 ->
  exec st0 fl st ->
  nconv st = 0 /\ Forall (fun s => s = false) fl.
Proof.
  intros Hreq H0.
  induction 1 as [|fl st st1 st2 He IH Hg Hm Hc].
  - split; [exact H0|constructor].
  - destruct IH as [IHn IHf].
    apply measure_inr in Hm.
    destruct Hm as [len [_ [_ [_ [_ [_ [_ [_ Hn1]]]]]]]].
    set (e := log (currentLength st1)) in *.
    assert (Hn0 : 0 <= nconv st1) by lia.
    pose proof (convergence_test_nconv e st1 Hn0) as Hnc.
    pose proof (convergence_test_Break e st1) as Hbr.
    rewrite Hc in Hnc, Hbr. simpl in Hnc, Hbr.
    assert (Hs : stable e st1 = false).
    { destruct (stable e st1); [|reflexivity].
      assert (HB : Next = Break) by (apply Hbr; split; [reflexivity|lia]).
      discriminate HB. }
    rewrite Hs in Hnc. split; [exact Hnc|].
    apply Forall_app. split; [exact IHf|].
    constructor; [exact Hs|constructor].
Qed.

End Call.

(** ** The identity scenario *)

Section IdentityScenario.

(** What the scenario needs of the collaborators: the logarithm of 1
    is 0, the Euclidean norm of [(1, 0)] is 1, and the empty braid
    word leaves the loop [(1, 0)] as it is. *)
Hypothesis log_1 : log 1%float = 0%float.
Hypothesis l2norm2_1_0 : l2norm2 2 [1%float] [0%float] = 1%float.
Hypothesis update_rules_empty :
  update_rules 0 3 [] [1%float] [0%float] = ([1%float], [0%float]).

Lemma identity_setup (maxit : Z) (tol : double) :
  setup (TestDoubles.identity_call maxit tol) =
    inr (TestDoubles.identity_state 1 None (-1)%float 0).
Proof.
  unfold setup, looplength.
  cbn -[PrimFloat.sqrt PrimFloat.ltb PrimFloat.sub].
  unfold double in *. rewrite l2norm2_1_0. reflexivity.
Qed.

Lemma identity_measure (maxit : Z) (tol : double) (i : Z)
  (e : option double) (e0 : double) (nc : Z) :
  measure (TestDoubles.identity_call maxit tol)
          (TestDoubles.identity_state i e e0 nc) =
    inr (TestDoubles.identity_state i (Some 0%float) e0 nc).
Proof.
  unfold measure, looplength.
  cbn -[PrimFloat.sqrt PrimFloat.ltb PrimFloat.sub PrimFloat.div].
  change (1 / 1)%float with 1%float.
  change (0 / 1)%float with 0%float.
  unfold double in *.
  change (Ngen (TestDoubles.identity_call maxit tol)) with O.
  change (n (TestDoubles.identity_call maxit tol)) with 3.
  rewrite update_rules_empty.
  cbn -[PrimFloat.sqrt PrimFloat.ltb PrimFloat.sub PrimFloat.div].
  rewrite l2norm2_1_0.
  change (PrimFloat.sqrt 1) with 1%float.
  change (1 <? 0)%float with false.
  cbn -[PrimFloat.sub].
  change (1 - 0)%float with 1%float.
  rewrite log_1. reflexivity.
Qed.

Lemma identity_body (maxit : Z) (tol : double) (i : Z)
  (e : option double) (e0 : double) (nc : Z) :
  loop_body (TestDoubles.identity_call maxit tol)
            (TestDoubles.identity_state i e e0 nc) =
    inr (convergence_test
           (TestDoubles.identity_call maxit tol) 0%float
           (TestDoubles.identity_state i (Some 0%float) e0 nc)).
Proof.
  unfold loop_body. rewrite identity_measure. simpl bind.
  change (currentLength
            (TestDoubles.identity_state i (Some 0%float) e0 nc))
    with 1%float.
  rewrite log_1. reflexivity.
Qed.

(** C2.  Empty braid word, loop [(1, 0)], Euclidean length,
    [maxit = 5], [nconvreq = 1], [tol = 1e-9], generic loop: the
    call returns the entropy [0], the iteration count 2 and the loop
    [(1, 0)].  The first pass compares [entr = 0] with the initial
    [entr0 = -1] and goes on; the second compares it with the
    [entr = 0] of the first and takes [break]. *)
Theorem identity_scenario :
  mexFunction (TestDoubles.identity_call 5 TestDoubles.tol_1em9) =
    inr {| P_ENTROPY := Some 0%float;
           P_ITERATES := 2;
           P_LOOP_OUT := [1%float; 0%float] |} /\
  setup (TestDoubles.identity_call 5 TestDoubles.tol_1em9) =
    inr (TestDoubles.identity_state 1 None (-1)%float 0) /\
  exec (TestDoubles.identity_call 5 TestDoubles.tol_1em9)
       (TestDoubles.identity_state 1 None (-1)%float 0) [false]
       (TestDoubles.identity_state 2 (Some 0%float) 0%float 0) /\
  loop_body (TestDoubles.identity_call 5 TestDoubles.tol_1em9)
            (TestDoubles.identity_state 2 (Some 0%float) 0%float 0) =
    inr (Break,
         TestDoubles.identity_state 2 (Some 0%float) 0%float 1).
Proof.
  set (args := TestDoubles.identity_call 5 TestDoubles.tol_1em9).
  assert (B1 : loop_body args
                 (TestDoubles.identity_state 1 None (-1)%float 0) =
               inr (Next,
                    TestDoubles.identity_state
                      1 (Some 0%float) 0%float 0)).
  { unfold args. rewrite identity_body. reflexivity. }
  assert (B2 : loop_body args
                 (TestDoubles.identity_state
                    2 (Some 0%float) 0%float 0) =
               inr (Break,
                    TestDoubles.identity_state
                      2 (Some 0%float) 0%float 1)).
  { unfold args. rewrite identity_body. reflexivity. }
  split; [|split; [apply identity_setup|split; [|exact B2]]].
  - unfold mexFunction, run, args. rewrite identity_setup.
    cbn [bind].
    change (Z.to_nat (maxit (TestDoubles.identity_call
                               5 TestDoubles.tol_1em9)))
      with 5%nat.
    fold args.
    rewrite for_loop_unfold.
    change (it (TestDoubles.identity_state 1 None (-1)%float 0)
            <=? maxit args) with true.
    cbv iota. rewrite B1. cbn [bind].
    change (incr_it (TestDoubles.identity_state
                       1 (Some 0%float) 0%float 0))
      with (TestDoubles.identity_state 2 (Some 0%float) 0%float 0).
    rewrite for_loop_unfold.
    change (it (TestDoubles.identity_state 2 (Some 0%float) 0%float 0)
            <=? maxit args) with true.
    cbv iota. rewrite B2. reflexivity.
  - pose proof
      (exec_pass args _ [] _
         (TestDoubles.identity_state 1 (Some 0%float) (-1)%float 0)
         (TestDoubles.identity_state 1 (Some 0%float) 0%float 0)
         (exec_start args
            (TestDoubles.identity_state 1 None (-1)%float 0))) as E.
    change (currentLength
              (TestDoubles.identity_state
                 1 (Some 0%float) (-1)%float 0))
      with 1%float in E.
    rewrite log_1 in E. apply E.
    + vm_compute. discriminate.
    + apply identity_measure.
    + reflexivity.
Qed.

End IdentityScenario.

End EntropyHelper.

(** ** The helper on the test doubles *)

Local Abbreviation td_looplength :=
  (looplength TestDoubles.abslength TestDoubles.abslength
              TestDoubles.l2norm2).
Local Abbreviation td_setup :=
  (setup TestDoubles.abslength TestDoubles.abslength TestDoubles.l2norm2).
Local Abbreviation td_measure :=
  (measure TestDoubles.log TestDoubles.update_rules TestDoubles.abslength
           TestDoubles.abslength TestDoubles.l2norm2).
Local Abbreviation td_loop_body :=
  (loop_body TestDoubles.log TestDoubles.update_rules TestDoubles.abslength
             TestDoubles.abslength TestDoubles.l2norm2).
Local Abbreviation td_exec :=
  (exec TestDoubles.log TestDoubles.update_rules TestDoubles.abslength
        TestDoubles.abslength TestDoubles.l2norm2).
Local Abbreviation td_run :=
  (run TestDoubles.log TestDoubles.update_rules TestDoubles.abslength
       TestDoubles.abslength TestDoubles.l2norm2).
Local Abbreviation td_mexFunction :=
  (mexFunction TestDoubles.log TestDoubles.update_rules
               TestDoubles.abslength TestDoubles.abslength
               TestDoubles.l2norm2).
Local Abbreviation td_exec_pass :=
  (exec_pass TestDoubles.log TestDoubles.update_rules TestDoubles.abslength
             TestDoubles.abslength TestDoubles.l2norm2).
Local Abbreviation td_exec_start :=
  (exec_start TestDoubles.log TestDoubles.update_rules
              TestDoubles.abslength TestDoubles.abslength
              TestDoubles.l2norm2).

(** Two passes of the identity scenario under a zero tolerance: the test
    of line 156 fails in both. *)
Lemma identity_two_passes (maxit : Z) :
  2 <= maxit ->
  td_exec (TestDoubles.identity_call maxit 0%float)
          (TestDoubles.identity_state 1 None (-1)%float 0)
          [false; false]
          (TestDoubles.identity_state 3 (Some 0%float) 0%float 0).
Proof.
  intros Hmax.
  refine (td_exec_pass (TestDoubles.identity_call maxit 0%float) _
            [false] (TestDoubles.identity_state 2 (Some 0%float) 0%float 0)
            (TestDoubles.identity_state 2 (Some 0%float) 0%float 0)
            (TestDoubles.identity_state 2 (Some 0%float) 0%float 0)
            _ _ _ _);
    [|simpl; unfold entropy_helper.maxit; simpl; lia
     |reflexivity|reflexivity].
  refine (td_exec_pass (TestDoubles.identity_call maxit 0%float) _
            [] (TestDoubles.identity_state 1 None (-1)%float 0)
            (TestDoubles.identity_state 1 (Some 0%float) (-1)%float 0)
            (TestDoubles.identity_state 1 (Some 0%float) 0%float 0)
            (td_exec_start _ _) _ _ _);
    [simpl; unfold entropy_helper.maxit; simpl; lia
    |reflexivity|reflexivity].
Qed.

(** The first pass of the identity scenario under the tolerance
    [1e-9]. *)
Lemma identity_first_pass :
  td_exec (TestDoubles.identity_call 5 TestDoubles.tol_1em9)
          (TestDoubles.identity_state 1 None (-1)%float 0)
          [false]
          (TestDoubles.identity_state 2 (Some 0%float) 0%float 0).
Proof.
  refine (td_exec_pass
            (TestDoubles.identity_call 5 TestDoubles.tol_1em9) _
            [] (TestDoubles.identity_state 1 None (-1)%float 0)
            (TestDoubles.identity_state 1 (Some 0%float) (-1)%float 0)
            (TestDoubles.identity_state 1 (Some 0%float) 0%float 0)
            (td_exec_start _ _) _ _ _);
    [vm_compute; discriminate|reflexivity|reflexivity].
Qed.

(** *** C8 *)

(** C8, witness: with a length function that answers [-1], [looplength]
    reports [badlength]. *)
Lemma looplength_never_negative_witness :
  ((0 = 0 /\ (-1)%float = TestDoubles.neglength 2 [1%float] [0%float]) \/
   (0 = 1 /\ (-1)%float = TestDoubles.abslength 2 [1%float] [0%float]) \/
   (0 = 2 /\
    (-1)%float =
      PrimFloat.sqrt (TestDoubles.l2norm2 2 [1%float] [0%float]))) /\
  looplength TestDoubles.neglength TestDoubles.abslength
             TestDoubles.l2norm2 2 [1%float] [0%float] 0 =
    inl badlength.
Proof.
  assert (H : (0 = 0 /\
               (-1)%float = TestDoubles.neglength 2 [1%float] [0%float]) \/
              (0 = 1 /\
               (-1)%float = TestDoubles.abslength 2 [1%float] [0%float]) \/
              (0 = 2 /\
               (-1)%float =
                 PrimFloat.sqrt
                   (TestDoubles.l2norm2 2 [1%float] [0%float])))
    by (left; split; reflexivity).
  split; [exact H|].
  exact (proj1 (looplength_never_negative
                  TestDoubles.neglength TestDoubles.abslength
                  TestDoubles.l2norm2 2 [1%float] [0%float] 0
                  (-1)%float H) eq_refl).
Defined.

(** C8, counterexample: the loop [(0, 0)] under the Euclidean length has
    length 0; the first pass divides its coordinates by that 0, and the
    length of the result, NaN, is returned by [looplength] although
    [0 <= NaN] is false.  Besides, under flag 2 a negative answer of
    [l2norm2] itself is not reported: its square root is NaN, which is
    returned. *)
Lemma looplength_returns_nan :
  td_setup (TestDoubles.call [0%float; 0%float] 5 1
                             TestDoubles.tol_1em9 2 false) =
    inr {| it := 1; a := [0%float]; b := [0%float]; discount := 0%float;
           currentLength := 0%float; entr := None; entr0 := (-1)%float;
           nconv := 0 |} /\
  rescale (TestDoubles.call [0%float; 0%float] 5 1
                            TestDoubles.tol_1em9 2 false)
          {| it := 1; a := [0%float]; b := [0%float];
             discount := 0%float; currentLength := 0%float;
             entr := None; entr0 := (-1)%float; nconv := 0 |} =
    ([nan], [nan], nan) /\
  td_looplength 2 [nan] [nan] 2 = inr nan /\
  (0 <=? nan)%float = false /\
  TestDoubles.neglength 2 [1%float] [0%float] = (-1)%float /\
  looplength TestDoubles.abslength TestDoubles.abslength
             TestDoubles.neglength 2 [1%float] [0%float] 2 = inr nan.
Proof. repeat split; reflexivity. Qed.

(** *** C1 *)

(** C1, witness: the state left by the set-up of the identity
    scenario. *)
Lemma currentLength_is_length_minus_discount_witness :
  (td_setup (TestDoubles.identity_call 5 TestDoubles.tol_1em9) =
     inr (TestDoubles.identity_state 1 None (-1)%float 0) \/
   (exists st',
      td_measure (TestDoubles.identity_call 5 TestDoubles.tol_1em9) st' =
        inr (TestDoubles.identity_state 1 None (-1)%float 0))) /\
  exists len,
    td_looplength 2 [1%float] [0%float] 2 = inr len /\
    (len <? 0)%float = false /\
    1%float = (len - 0)%float /\
    (0%float = 0%float -> (1 <? 0)%float = false).
Proof.
  assert (H : td_setup (TestDoubles.identity_call 5 TestDoubles.tol_1em9) =
                inr (TestDoubles.identity_state 1 None (-1)%float 0) \/
              (exists st',
                 td_measure
                   (TestDoubles.identity_call 5 TestDoubles.tol_1em9) st' =
                   inr (TestDoubles.identity_state 1 None (-1)%float 0)))
    by (left; reflexivity).
  split; [exact H|].
  exact (currentLength_is_length_minus_discount
           TestDoubles.log TestDoubles.update_rules TestDoubles.abslength
           TestDoubles.abslength TestDoubles.l2norm2
           (TestDoubles.identity_call 5 TestDoubles.tol_1em9)
           (TestDoubles.identity_state 1 None (-1)%float 0) H).
Defined.

(** C1, counterexample: under flag 0 the zero loop [(0, 0)] has length 0
    (a length function may answer 0 without breaking the contract of
    [looplength]) and discount [3 - 1 = 2]: line 133 leaves
    [currentLength = -2], and the first pass divides by it. *)
Lemma currentLength_negative_counterexample :
  td_setup (TestDoubles.call [0%float; 0%float] 5 1
                             TestDoubles.tol_1em9 0 false) =
    inr {| it := 1; a := [0%float]; b := [0%float]; discount := 2%float;
           currentLength := (-2)%float; entr := None;
           entr0 := (-1)%float; nconv := 0 |} /\
  td_looplength 2 [0%float] [0%float] 0 = inr 0%float /\
  ((-2) <? 0)%float = true /\
  (0 <=? (-2))%float = false /\
  rescale (TestDoubles.call [0%float; 0%float] 5 1
                            TestDoubles.tol_1em9 0 false)
          {| it := 1; a := [0%float]; b := [0%float];
             discount := 2%float; currentLength := (-2)%float;
             entr := None; entr0 := (-1)%float; nconv := 0 |} =
    ([(0 / (-2))%float], [(0 / (-2))%float], (2 / (-2))%float).
Proof. repeat split; reflexivity. Qed.

(** *** C2 *)

(** C2, witness: the test doubles meet the three assumptions of the
    scenario. *)
Lemma identity_scenario_witness :
  (TestDoubles.log 1%float = 0%float /\
   TestDoubles.l2norm2 2 [1%float] [0%float] = 1%float /\
   TestDoubles.update_rules 0 3 [] [1%float] [0%float] =
     ([1%float], [0%float])) /\
  td_mexFunction (TestDoubles.identity_call 5 TestDoubles.tol_1em9) =
    inr {| P_ENTROPY := Some 0%float;
           P_ITERATES := 2;
           P_LOOP_OUT := [1%float; 0%float] |}.
Proof.
  split; [repeat split; reflexivity|].
  exact (proj1 (identity_scenario
                  TestDoubles.log TestDoubles.update_rules
                  TestDoubles.abslength TestDoubles.abslength
                  TestDoubles.l2norm2 eq_refl eq_refl eq_refl)).
Defined.

(** *** C3 and C4 *)

(** C3, witness: the identity scenario with [maxit = 2] and a zero
    tolerance; both passes are made and the count returned is 3. *)
Lemma iterates_after_maxit_passes_witness :
  (0 <= 2 < INT_MAX /\
   td_setup (TestDoubles.identity_call 2 0%float) =
     inr (TestDoubles.identity_state 1 None (-1)%float 0) /\
   td_exec (TestDoubles.identity_call 2 0%float)
           (TestDoubles.identity_state 1 None (-1)%float 0)
           [false; false]
           (TestDoubles.identity_state 3 (Some 0%float) 0%float 0) /\
   Z.of_nat (length [false; false]) = 2) /\
  td_mexFunction (TestDoubles.identity_call 2 0%float) =
    inr {| P_ENTROPY := Some 0%float;
           P_ITERATES := 3;
           P_LOOP_OUT := [1%float; 0%float] |}.
Proof.
  assert (Hmax : 0 <= 2 < INT_MAX) by (unfold INT_MAX; lia).
  assert (He : td_exec (TestDoubles.identity_call 2 0%float)
                       (TestDoubles.identity_state 1 None (-1)%float 0)
                       [false; false]
                       (TestDoubles.identity_state
                          3 (Some 0%float) 0%float 0))
    by (apply identity_two_passes; lia).
  split; [repeat split; try reflexivity; try exact He; apply Hmax|].
  exact (proj1 (iterates_after_maxit_passes
                  TestDoubles.log TestDoubles.update_rules
                  TestDoubles.abslength TestDoubles.abslength
                  TestDoubles.l2norm2
                  (TestDoubles.identity_call 2 0%float)
                  (TestDoubles.identity_state 1 None (-1)%float 0)
                  [false; false]
                  (TestDoubles.identity_state 3 (Some 0%float) 0%float 0)
                  Hmax eq_refl He eq_refl)).
Defined.

(** C4, witness: the same run, left through the guard of the loop. *)
Lemma iterates_signals_exit_witness :
  (0 <= 2 < INT_MAX /\
   td_run (TestDoubles.identity_call 2 0%float) =
     inr (Next, TestDoubles.identity_state 3 (Some 0%float) 0%float 0)) /\
  (Next = Next <->
   P_ITERATES
     (finish (TestDoubles.identity_call 2 0%float)
             (TestDoubles.identity_state 3 (Some 0%float) 0%float 0)) =
     2 + 1).
Proof.
  assert (Hmax : 0 <= 2 < INT_MAX) by (unfold INT_MAX; lia).
  split; [split; [exact Hmax|reflexivity]|].
  exact (proj1 (proj2 (iterates_signals_exit
                         TestDoubles.log TestDoubles.update_rules
                         TestDoubles.abslength TestDoubles.abslength
                         TestDoubles.l2norm2
                         (TestDoubles.identity_call 2 0%float) Next
                         (TestDoubles.identity_state
                            3 (Some 0%float) 0%float 0)
                         Hmax eq_refl))).
Defined.

(** C4, counterexample: the identity scenario with [maxit = 5] and a
    zero tolerance never passes the test of line 156; the loop is left
    through its guard and the count returned is 6, not 5. *)
Lemma iterates_not_maxit_counterexample :
  td_run (TestDoubles.identity_call 5 0%float) =
    inr (Next, TestDoubles.identity_state 6 (Some 0%float) 0%float 0) /\
  td_mexFunction (TestDoubles.identity_call 5 0%float) =
    inr {| P_ENTROPY := Some 0%float;
           P_ITERATES := 6;
           P_LOOP_OUT := [1%float; 0%float] |} /\
  maxit (TestDoubles.identity_call 5 0%float) = 5 /\
  (6 =? maxit (TestDoubles.identity_call 5 0%float)) = false.
Proof. repeat split; reflexivity. Qed.

(** *** C5 *)

(** C5, witness: a generic loop of length 4 ([m = 2]) under flag 0 has
    [n = 4] punctures. *)
Lemma initial_discount_spec_witness :
  (N (TestDoubles.call [1%float; 0%float; 0%float; 0%float] 5 1
                       TestDoubles.tol_1em9 0 false) = (2 * 2)%nat /\
   Z.of_nat 2 + 2 <= INT_MAX) /\
  n (TestDoubles.call [1%float; 0%float; 0%float; 0%float] 5 1
                      TestDoubles.tol_1em9 0 false) = Z.of_nat 2 + 2.
Proof.
  assert (Hm : Z.of_nat 2 + 2 <= INT_MAX) by (unfold INT_MAX; simpl; lia).
  split; [split; [reflexivity|exact Hm]|].
  exact (proj1 (initial_discount_spec
                  TestDoubles.log TestDoubles.update_rules
                  TestDoubles.abslength TestDoubles.abslength
                  TestDoubles.l2norm2
                  (TestDoubles.call
                     [1%float; 0%float; 0%float; 0%float] 5 1
                     TestDoubles.tol_1em9 0 false)
                  2%nat eq_refl Hm)).
Defined.

(** C5, counterexample.  A generic loop of length 4 ([m = 2]) under
    flag 0: the discount starts at 3, while [(m/2 + 2) - 1] is 2.  And
    under flag 2 the discount does not stay 0 throughout: for the loop
    [(0, 0)] the first pass divides it by the length 0 and leaves NaN. *)
Lemma initial_discount_counterexample :
  N (TestDoubles.call [1%float; 0%float; 0%float; 0%float] 5 1
                      TestDoubles.tol_1em9 0 false) = (2 * 2)%nat /\
  initial_discount
    (TestDoubles.call [1%float; 0%float; 0%float; 0%float] 5 1
                      TestDoubles.tol_1em9 0 false) = 3%float /\
  (double_of_int (Z.of_nat 2 / 2 + 2) - 1)%float = 2%float /\
  (3 =? 2)%float = false /\
  td_setup (TestDoubles.call [0%float; 0%float] 5 1
                             TestDoubles.tol_1em9 2 false) =
    inr {| it := 1; a := [0%float]; b := [0%float]; discount := 0%float;
           currentLength := 0%float; entr := None; entr0 := (-1)%float;
           nconv := 0 |} /\
  td_measure (TestDoubles.call [0%float; 0%float] 5 1
                               TestDoubles.tol_1em9 2 false)
             {| it := 1; a := [0%float]; b := [0%float];
                discount := 0%float; currentLength := 0%float;
                entr := None; entr0 := (-1)%float; nconv := 0 |} =
    inr {| it := 1; a := [nan]; b := [nan]; discount := nan;
           currentLength := nan; entr := Some nan; entr0 := (-1)%float;
           nconv := 0 |} /\
  (nan =? 0)%float = false.
Proof. repeat split; reflexivity. Qed.

(** *** C6 *)

(** C6, witness: the second pass of the identity scenario; after the
    outcomes [false; true] and with [nconvreq = 1], [break] is taken. *)
Lemma convergence_streak_witness :
  (1 <= nconvreq (TestDoubles.identity_call 5 TestDoubles.tol_1em9) /\
   nconv (TestDoubles.identity_state 1 None (-1)%float 0) = 0 /\
   td_exec (TestDoubles.identity_call 5 TestDoubles.tol_1em9)
           (TestDoubles.identity_state 1 None (-1)%float 0)
           [false]
           (TestDoubles.identity_state 2 (Some 0%float) 0%float 0) /\
   td_measure (TestDoubles.identity_call 5 TestDoubles.tol_1em9)
              (TestDoubles.identity_state 2 (Some 0%float) 0%float 0) =
     inr (TestDoubles.identity_state 2 (Some 0%float) 0%float 0) /\
   convergence_test
     (TestDoubles.identity_call 5 TestDoubles.tol_1em9)
     (TestDoubles.log 1%float)
     (TestDoubles.identity_state 2 (Some 0%float) 0%float 0) =
     (Break, TestDoubles.identity_state 2 (Some 0%float) 0%float 1)) /\
  (Break = Break <->
   exists pre, [false] ++ [true] = pre ++ repeat true (Z.to_nat 1)).
Proof.
  assert (Hreq : 1 <= nconvreq
                        (TestDoubles.identity_call 5 TestDoubles.tol_1em9))
    by (vm_compute; discriminate).
  split;
    [repeat split;
     try exact Hreq; try exact identity_first_pass; reflexivity|].
  exact (proj2 (convergence_streak
                  TestDoubles.log TestDoubles.update_rules
                  TestDoubles.abslength TestDoubles.abslength
                  TestDoubles.l2norm2
                  (TestDoubles.identity_call 5 TestDoubles.tol_1em9)
                  (TestDoubles.identity_state 1 None (-1)%float 0)
                  [false]
                  (TestDoubles.identity_state 2 (Some 0%float) 0%float 0)
                  (TestDoubles.identity_state 2 (Some 0%float) 0%float 0)
                  Break
                  (TestDoubles.identity_state 2 (Some 0%float) 0%float 1)
                  Hreq eq_refl identity_first_pass eq_refl eq_refl)).
Defined.

(** *** C7 *)

(** C7, witness: the first pass on the loop [(3, 4)], of Euclidean
    length 5: the coordinates become [3/5] and [4/5]. *)
Lemma rescale_same_divisor_witness :
  (td_loop_body
     (TestDoubles.call [3%float; 4%float] 5 1 TestDoubles.tol_1em9 2 false)
     {| it := 1; a := [3%float]; b := [4%float]; discount := 0%float;
        currentLength := 5%float; entr := None; entr0 := (-1)%float;
        nconv := 0 |} =
     inr (Next,
          {| it := 1; a := [(3 / 5)%float]; b := [(4 / 5)%float];
             discount := (0 / 5)%float; currentLength := 1%float;
             entr := Some 0%float; entr0 := 0%float; nconv := 0 |}) /\
   (1 <= 1 <= N (TestDoubles.call [3%float; 4%float] 5 1
                                  TestDoubles.tol_1em9 2 false) / 2)%nat) /\
  (0 / 5)%float = (0 / 5)%float /\
  idx1 [(3 / 5)%float] 1 = (idx1 [3%float] 1 / 5)%float /\
  idx1 [(4 / 5)%float] 1 = (idx1 [4%float] 1 / 5)%float /\
  (0 / 5)%float = (0 / 5)%float /\
  ([(3 / 5)%float], [(4 / 5)%float]) =
    TestDoubles.update_rules 0 3 [] [(3 / 5)%float] [(4 / 5)%float].
Proof.
  assert (Hk : (1 <= 1 <= N (TestDoubles.call
                               [3%float; 4%float] 5 1
                               TestDoubles.tol_1em9 2 false) / 2)%nat)
    by (vm_compute; split; constructor).
  split; [split; [reflexivity|exact Hk]|].
  exact (rescale_same_divisor
           TestDoubles.log TestDoubles.update_rules
           TestDoubles.abslength TestDoubles.abslength TestDoubles.l2norm2
           (TestDoubles.call [3%float; 4%float] 5 1
                             TestDoubles.tol_1em9 2 false)
           {| it := 1; a := [3%float]; b := [4%float];
              discount := 0%float; currentLength := 5%float;
              entr := None; entr0 := (-1)%float; nconv := 0 |}
           Next
           {| it := 1; a := [(3 / 5)%float]; b := [(4 / 5)%float];
              discount := (0 / 5)%float; currentLength := 1%float;
              entr := Some 0%float; entr0 := 0%float; nconv := 0 |}
           1%nat eq_refl Hk).
Defined.

(** *** C9 *)

(** C9, witness: the identity scenario with the flag 5. *)
Lemma unsupported_flag_is_fatal_witness :
  (lengthFlag (TestDoubles.call [1%float; 0%float] 5 1
                                TestDoubles.tol_1em9 5 false) <> 0 /\
   lengthFlag (TestDoubles.call [1%float; 0%float] 5 1
                                TestDoubles.tol_1em9 5 false) <> 1 /\
   lengthFlag (TestDoubles.call [1%float; 0%float] 5 1
                                TestDoubles.tol_1em9 5 false) <> 2) /\
  td_mexFunction (TestDoubles.call [1%float; 0%float] 5 1
                                   TestDoubles.tol_1em9 5 false) =
    inl badlengthflag.
Proof.
  assert (H0 : lengthFlag (TestDoubles.call
                             [1%float; 0%float] 5 1
                             TestDoubles.tol_1em9 5 false) <> 0)
    by (vm_compute; discriminate).
  assert (H1 : lengthFlag (TestDoubles.call
                             [1%float; 0%float] 5 1
                             TestDoubles.tol_1em9 5 false) <> 1)
    by (vm_compute; discriminate).
  assert (H2 : lengthFlag (TestDoubles.call
                             [1%float; 0%float] 5 1
                             TestDoubles.tol_1em9 5 false) <> 2)
    by (vm_compute; discriminate).
  split; [repeat split; assumption|].
  exact (proj2 (proj2 (proj2 (unsupported_flag_is_fatal
                                TestDoubles.log TestDoubles.update_rules
                                TestDoubles.abslength TestDoubles.abslength
                                TestDoubles.l2norm2
                                (TestDoubles.call
                                   [1%float; 0%float] 5 1
                                   TestDoubles.tol_1em9 5 false)
                                H0 H1 H2) eq_refl eq_refl))).
Defined.

(** *** C10 *)

(** C10, witness: the identity scenario with the tolerance 10: the
    first [entr], 0, is within 10 of the initial [entr0 = -1], and the
    call returns the count 1. *)
Lemma first_pass_compares_with_sentinel_witness :
  (1 <= maxit (TestDoubles.identity_call 5 10%float) /\
   nconvreq (TestDoubles.identity_call 5 10%float) = 1 /\
   td_setup (TestDoubles.identity_call 5 10%float) =
     inr (TestDoubles.identity_state 1 None (-1)%float 0) /\
   td_measure (TestDoubles.identity_call 5 10%float)
              (TestDoubles.identity_state 1 None (-1)%float 0) =
     inr (TestDoubles.identity_state 1 (Some 0%float) (-1)%float 0) /\
   (PrimFloat.abs (TestDoubles.log 1%float - (-1)) <?
      tol (TestDoubles.identity_call 5 10%float))%float = true) /\
  entr0 (TestDoubles.identity_state 1 None (-1)%float 0) = (-1)%float /\
  exists out,
    td_mexFunction (TestDoubles.identity_call 5 10%float) = inr out /\
    P_ITERATES out = 1 /\
    P_ENTROPY out = Some (TestDoubles.log 1%float).
Proof.
  assert (Hmax : 1 <= maxit (TestDoubles.identity_call 5 10%float))
    by (vm_compute; discriminate).
  split; [repeat split; try reflexivity; exact Hmax|].
  exact (first_pass_compares_with_sentinel
           TestDoubles.log TestDoubles.update_rules
           TestDoubles.abslength TestDoubles.abslength TestDoubles.l2norm2
           (TestDoubles.identity_call 5 10%float)
           (TestDoubles.identity_state 1 None (-1)%float 0)
           (TestDoubles.identity_state 1 (Some 0%float) (-1)%float 0)
           Hmax eq_refl eq_refl eq_refl eq_refl).
Defined.

(** ** Further properties on the test doubles *)

(** X3, witness: 1 and 1.5 are equal up to the tolerance 1. *)
Lemma eqfuzzy_true_finite_witness :
  eqfuzzy 1%float 1.5%float 1%float = true /\
  is_finite 1%float = true /\ is_finite 1.5%float = true /\
  (0 <? 1)%float = true.
Proof.
  split; [reflexivity|].
  exact (eqfuzzy_true_finite 1%float 1.5%float 1%float eq_refl).
Defined.

(** X7, witness: under flag 0 with the defective length function, the
    call on the loop [(1, 0)] ends in [badlength]. *)
Lemma badlength_only_from_negative_length_witness :
  mexFunction TestDoubles.log TestDoubles.update_rules
              TestDoubles.neglength TestDoubles.abslength
              TestDoubles.l2norm2
              (TestDoubles.call [1%float; 0%float] 5 1
                                TestDoubles.tol_1em9 0 false) =
    inl badlength /\
  P_LOOP_IN_M (TestDoubles.call [1%float; 0%float] 5 1
                                TestDoubles.tol_1em9 0 false) = 1%nat.
Proof.
  split; [reflexivity|].
  exact (proj1 (badlength_only_from_negative_length
                  TestDoubles.log TestDoubles.update_rules
                  TestDoubles.neglength TestDoubles.abslength
                  TestDoubles.l2norm2
                  (TestDoubles.call [1%float; 0%float] 5 1
                                    TestDoubles.tol_1em9 0 false)
                  eq_refl)).
Defined.


(** X9, witness: the loop [(3, 4, 5, 6)] is split in [(3, 4)] and
    [(5, 6)] and put together again. *)
Lemma store_round_trip_witness :
  ((N (TestDoubles.call [3%float; 4%float; 5%float; 6%float] 5 1
                        TestDoubles.tol_1em9 2 false) mod 2 = 0)%nat /\
   [3%float; 4%float] =
     a_in (TestDoubles.call [3%float; 4%float; 5%float; 6%float] 5 1
                            TestDoubles.tol_1em9 2 false) /\
   [5%float; 6%float] =
     b_in (TestDoubles.call [3%float; 4%float; 5%float; 6%float] 5 1
                            TestDoubles.tol_1em9 2 false)) /\
  P_LOOP_OUT
    (finish (TestDoubles.call [3%float; 4%float; 5%float; 6%float] 5 1
                              TestDoubles.tol_1em9 2 false)
            {| it := 1; a := [3%float; 4%float];
               b := [5%float; 6%float]; discount := 0%float;
               currentLength := 1%float; entr := None;
               entr0 := (-1)%float; nconv := 0 |}) =
    [3%float; 4%float; 5%float; 6%float].
Proof.
  split; [repeat split; reflexivity|].
  exact (proj2 (proj2 (proj2
           (store_round_trip
              (TestDoubles.call [3%float; 4%float; 5%float; 6%float] 5 1
                                TestDoubles.tol_1em9 2 false)
              {| it := 1; a := [3%float; 4%float];
                 b := [5%float; 6%float]; discount := 0%float;
                 currentLength := 1%float; entr := None;
                 entr0 := (-1)%float; nconv := 0 |}
              eq_refl eq_refl eq_refl)))).
Defined.

(** X10, witness: the identity scenario with [maxit = 0]. *)
Lemma no_pass_when_maxit_not_positive_witness :
  (maxit (TestDoubles.identity_call 0 TestDoubles.tol_1em9) <= 0 /\
   td_setup (TestDoubles.identity_call 0 TestDoubles.tol_1em9) =
     inr (TestDoubles.identity_state 1 None (-1)%float 0)) /\
  td_mexFunction (TestDoubles.identity_call 0 TestDoubles.tol_1em9) =
    inr {| P_ENTROPY := None;
           P_ITERATES := 1;
           P_LOOP_OUT := [1%float; 0%float] |}.
Proof.
  assert (Hmax : maxit (TestDoubles.identity_call 0 TestDoubles.tol_1em9)
                 <= 0) by (vm_compute; discriminate).
  split; [split; [exact Hmax|reflexivity]|].
  exact (no_pass_when_maxit_not_positive
           TestDoubles.log TestDoubles.update_rules
           TestDoubles.abslength TestDoubles.abslength TestDoubles.l2norm2
           (TestDoubles.identity_call 0 TestDoubles.tol_1em9)
           (TestDoubles.identity_state 1 None (-1)%float 0)
           Hmax eq_refl).
Defined.

(** X11, witness: the identity scenario returns a loop of 2 columns. *)
Lemma output_has_input_length_witness :
  td_mexFunction (TestDoubles.identity_call 5 TestDoubles.tol_1em9) =
    inr {| P_ENTROPY := Some 0%float;
           P_ITERATES := 2;
           P_LOOP_OUT := [1%float; 0%float] |} /\
  length [1%float; 0%float] =
    N (TestDoubles.identity_call 5 TestDoubles.tol_1em9).
Proof.
  split; [reflexivity|].
  exact (output_has_input_length
           TestDoubles.log TestDoubles.update_rules
           TestDoubles.abslength TestDoubles.abslength TestDoubles.l2norm2
           (TestDoubles.identity_call 5 TestDoubles.tol_1em9)
           {| P_ENTROPY := Some 0%float;
              P_ITERATES := 2;
              P_LOOP_OUT := [1%float; 0%float] |}
           eq_refl).
Defined.

(** X12, witness: the identity scenario, left in its second pass. *)
Lemma entropy_unassigned_iff_no_pass_witness :
  td_run (TestDoubles.identity_call 5 TestDoubles.tol_1em9) =
    inr (Break, TestDoubles.identity_state 2 (Some 0%float) 0%float 1) /\
  (P_ENTROPY
     (finish (TestDoubles.identity_call 5 TestDoubles.tol_1em9)
             (TestDoubles.identity_state 2 (Some 0%float) 0%float 1)) =
     None <->
   maxit (TestDoubles.identity_call 5 TestDoubles.tol_1em9) <= 0).
Proof.
  split; [reflexivity|].
  exact (proj1 (entropy_unassigned_iff_no_pass
                  TestDoubles.log TestDoubles.update_rules
                  TestDoubles.abslength TestDoubles.abslength
                  TestDoubles.l2norm2
                  (TestDoubles.identity_call 5 TestDoubles.tol_1em9)
                  Break
                  (TestDoubles.identity_state 2 (Some 0%float) 0%float 1)
                  eq_refl)).
Defined.

(** X13, witness: the identity scenario, left through [break]. *)
Lemma break_returns_stable_finite_entropy_witness :
  td_run (TestDoubles.identity_call 5 TestDoubles.tol_1em9) =
    inr (Break, TestDoubles.identity_state 2 (Some 0%float) 0%float 1) /\
  P_ENTROPY
    (finish (TestDoubles.identity_call 5 TestDoubles.tol_1em9)
            (TestDoubles.identity_state 2 (Some 0%float) 0%float 1)) =
    Some (TestDoubles.log 1%float).
Proof.
  split; [reflexivity|].
  exact (proj1 (break_returns_stable_finite_entropy
                  TestDoubles.log TestDoubles.update_rules
                  TestDoubles.abslength TestDoubles.abslength
                  TestDoubles.l2norm2
                  (TestDoubles.identity_call 5 TestDoubles.tol_1em9)
                  (TestDoubles.identity_state 2 (Some 0%float) 0%float 1)
                  eq_refl)).
Defined.

(** X14, witness: the identity scenario under a zero tolerance. *)
Lemma no_break_without_positive_tol_witness :
  ((0 <? tol (TestDoubles.identity_call 2 0%float))%float = false /\
   td_run (TestDoubles.identity_call 2 0%float) =
     inr (Next, TestDoubles.identity_state 3 (Some 0%float) 0%float 0)) /\
  Next = Next /\
  P_ITERATES
    (finish (TestDoubles.identity_call 2 0%float)
            (TestDoubles.identity_state 3 (Some 0%float) 0%float 0)) =
    Z.max 1 (maxit (TestDoubles.identity_call 2 0%float) + 1).
Proof.
  split; [split; reflexivity|].
  exact (no_break_without_positive_tol
           TestDoubles.log TestDoubles.update_rules
           TestDoubles.abslength TestDoubles.abslength TestDoubles.l2norm2
           (TestDoubles.identity_call 2 0%float) Next
           (TestDoubles.identity_state 3 (Some 0%float) 0%float 0)
           eq_refl eq_refl).
Defined.

(** X15, witness: the first pass on the zero loop under flag 2 divides
    by the length 0; its estimate is NaN. *)
Lemma non_finite_estimate_resets_streak_witness :
  (td_measure (TestDoubles.call [0%float; 0%float] 5 1
                                TestDoubles.tol_1em9 2 false)
              {| it := 1; a := [0%float]; b := [0%float];
                 discount := 0%float; currentLength := 0%float;
                 entr := None; entr0 := (-1)%float; nconv := 0 |} =
     inr {| it := 1; a := [nan]; b := [nan]; discount := nan;
            currentLength := nan; entr := Some nan;
            entr0 := (-1)%float; nconv := 0 |} /\
   0 <= 0 /\
   (is_finite (TestDoubles.log nan) = false \/
    is_finite (-1)%float = false)) /\
  exists st2,
    td_loop_body (TestDoubles.call [0%float; 0%float] 5 1
                                   TestDoubles.tol_1em9 2 false)
                 {| it := 1; a := [0%float]; b := [0%float];
                    discount := 0%float; currentLength := 0%float;
                    entr := None; entr0 := (-1)%float; nconv := 0 |} =
      inr (Next, st2) /\
    nconv st2 = 0 /\ entr0 st2 = TestDoubles.log nan.
Proof.
  assert (Hn : 0 <= 0) by lia.
  assert (Hf : is_finite (TestDoubles.log nan) = false \/
               is_finite (-1)%float = false) by (left; reflexivity).
  split; [repeat split; try reflexivity; assumption|].
  exact (non_finite_estimate_resets_streak
           TestDoubles.log TestDoubles.update_rules
           TestDoubles.abslength TestDoubles.abslength TestDoubles.l2norm2
           (TestDoubles.call [0%float; 0%float] 5 1
                             TestDoubles.tol_1em9 2 false)
           {| it := 1; a := [0%float]; b := [0%float];
              discount := 0%float; currentLength := 0%float;
              entr := None; entr0 := (-1)%float; nconv := 0 |}
           {| it := 1; a := [nan]; b := [nan]; discount := nan;
              currentLength := nan; entr := Some nan;
              entr0 := (-1)%float; nconv := 0 |}
           eq_refl Hn Hf).
Defined.

(** X16, witness: the first pass of the identity scenario
    ([nconvreq = 1]) fails the test and the loop goes on. *)
Lemma first_stable_pass_breaks_witness :
  (nconvreq (TestDoubles.identity_call 5 TestDoubles.tol_1em9) <= 1 /\
   nconv (TestDoubles.identity_state 1 None (-1)%float 0) = 0 /\
   td_exec (TestDoubles.identity_call 5 TestDoubles.tol_1em9)
           (TestDoubles.identity_state 1 None (-1)%float 0)
           [false]
           (TestDoubles.identity_state 2 (Some 0%float) 0%float 0)) /\
  nconv (TestDoubles.identity_state 2 (Some 0%float) 0%float 0) = 0 /\
  Forall (fun s => s = false) [false].
Proof.
  assert (Hreq : nconvreq
                   (TestDoubles.identity_call 5 TestDoubles.tol_1em9)
                 <= 1) by (vm_compute; discriminate).
  split; [split; [exact Hreq|split; [reflexivity|]]|].
  - exact identity_first_pass.
  - exact (first_stable_pass_breaks
             TestDoubles.log TestDoubles.update_rules
             TestDoubles.abslength TestDoubles.abslength
             TestDoubles.l2norm2
             (TestDoubles.identity_call 5 TestDoubles.tol_1em9)
             (TestDoubles.identity_state 1 None (-1)%float 0)
             [false]
             (TestDoubles.identity_state 2 (Some 0%float) 0%float 0)
             Hreq eq_refl identity_first_pass).
Defined.

End entropy_helper.
